(** * Upload orchestration of pkg/filesystem/upload.go

    A shallow embedding of [Upload], [GenerateSavePath], [CancelUpload] and
    [GetUploadToken].  Calls to collaborators (hooks, storage handler, cache,
    settings, logger, naming rules) are the visible actions of a small free
    monad; a run of a program against an arbitrary environment yields the
    returned value together with the list of calls that were made. *)

From Stdlib Require Import ZArith List Bool Ascii String Lia.
From stdpp Require Import base option list strings gmap pretty.

Open Scope string_scope.
Open Scope Z_scope.

(** ** Go standard library: strconv *)

Module strconv.

Inductive ErrKind := ErrSyntax | ErrRange.

(** [*strconv.NumError]: failing function, offending input, reason. *)
Record NumError := mkNumError { Func : string; Num : string; Err : ErrKind }.

Definition maxUint64 : Z := 2 ^ 64 - 1.

(** value of a decimal digit byte, ['0' <= c && c <= '9'] *)
Definition digit_of (c : ascii) : option Z :=
  let n := Z.of_nat (nat_of_ascii c) in
  if (48 <=? n) && (n <=? 57) then Some (n - 48) else None.

(** the letter branch of ParseUint: [d = lower(c) - 'a' + 10], always
    [>= base] for base 10 and therefore a syntax error *)
Definition letter_of (c : ascii) : option Z :=
  let n := Z.of_nat (nat_of_ascii c) in
  let l := if (65 <=? n) && (n <=? 90) then n + 32 else n in
  if (97 <=? l) && (l <=? 122) then Some (l - 97 + 10) else None.

(** The digit loop of [ParseUint(s, 10, 64)].  [n] is the accumulator; the
    uint64 overflow test [n1 < n || n1 > maxVal] is the test
    [maxUint64 < n*10 + d] on unbounded integers because [n < cutoff]. *)
Fixpoint ParseUint_loop (s : string) (n : Z) : Z * option ErrKind :=
  match s with
  | EmptyString => (n, None)
  | String c rest =>
      let d := match digit_of c with
               | Some d => Some d
               | None => letter_of c
               end in
      match d with
      | None => (0, Some ErrSyntax)
      | Some d =>
          if 10 <=? d then (0, Some ErrSyntax)
          else if maxUint64 / 10 + 1 <=? n then (maxUint64, Some ErrRange)
          else
            let n1 := n * 10 + d in
            if maxUint64 <? n1 then (maxUint64, Some ErrRange)
            else ParseUint_loop rest n1
      end
  end.

Definition ParseUint (s : string) : Z * option ErrKind :=
  match s with
  | EmptyString => (0, Some ErrSyntax)
  | _ => ParseUint_loop s 0
  end.

(** [strconv.ParseInt(s, 10, 64)]: both results, as Go returns them. *)
Definition ParseInt (s : string) : Z * option NumError :=
  match s with
  | EmptyString => (0, Some (mkNumError "ParseInt" s ErrSyntax))
  | String c rest =>
      let neg := Ascii.eqb c "-"%char in
      let body := if Ascii.eqb c "+"%char || neg then rest else s in
      let cutoff := 2 ^ 63 in
      match ParseUint body with
      | (_, Some ErrSyntax) => (0, Some (mkNumError "ParseInt" s ErrSyntax))
      | (un, _) =>
          if negb neg && (cutoff <=? un)
          then (cutoff - 1, Some (mkNumError "ParseInt" s ErrRange))
          else if neg && (cutoff <? un)
          then (- cutoff, Some (mkNumError "ParseInt" s ErrRange))
          else (if neg then - un else un, None)
      end
  end.

(** a decimal numeral: optional sign, then at least one digit *)
Definition all_digits (s : string) : bool :=
  forallb (fun c => match digit_of c with Some _ => true | None => false end)
    (list_ascii_of_string s).

Definition numeric (s : string) : bool :=
  match s with
  | EmptyString => false
  | String c rest =>
      let body := if Ascii.eqb c "+"%char || Ascii.eqb c "-"%char then rest else s in
      negb (String.eqb body "") && all_digits body
  end.

End strconv.

(** ** Go standard library: path/filepath (Unix separator) *)

Module filepath.

(** components of a path between separators *)
Fixpoint split_aux (s : string) (cur : string) : list string :=
  match s with
  | EmptyString => [cur]
  | String c rest =>
      if Ascii.eqb c "/"%char then cur :: split_aux rest ""
      else split_aux rest (cur ++ String c "")
  end.

Definition split (s : string) : list string := split_aux s "".

(** One pass of [Clean] over the components; [out] is the output so far, most
    recent component first.  A leading run of [..] components cannot be
    backtracked over (Go's [dotdot] mark). *)
Fixpoint clean_components (rooted : bool) (cs : list string) (out : list string)
  : list string :=
  match cs with
  | [] => out
  | c :: rest =>
      if String.eqb c "" || String.eqb c "." then clean_components rooted rest out
      else if String.eqb c ".." then
        match out with
        | top :: out' =>
            if String.eqb top ".." then clean_components rooted rest (c :: out)
            else clean_components rooted rest out'
        | [] =>
            if rooted then clean_components rooted rest out
            else clean_components rooted rest [c]
        end
      else clean_components rooted rest (c :: out)
  end.

Fixpoint join_sep (cs : list string) : string :=
  match cs with
  | [] => ""
  | [c] => c
  | c :: rest => c ++ "/" ++ join_sep rest
  end.

Definition Clean (path : string) : string :=
  match path with
  | EmptyString => "."
  | String c _ =>
      let rooted := Ascii.eqb c "/"%char in
      let body := join_sep (rev (clean_components rooted (split path) [])) in
      let res := if rooted then "/" ++ body else body in
      if String.eqb res "" then "." else res
  end.

(** [filepath.Join(a, b)]: empty leading elements are skipped, the rest is
    joined with the separator and cleaned; all empty gives the empty string. *)
Definition Join (a b : string) : string :=
  if negb (String.eqb a "") then Clean (a ++ "/" ++ b)
  else if negb (String.eqb b "") then Clean b
  else "".

End filepath.

(** ** Data model *)

(** [fsctx]: the context keys the upload code reads and writes. *)
Module fsctx.

Inductive key :=
  | FileHeaderCtx | FileModelCtx | SavePathCtx
  | GinCtx | HTTPCtx | UploadPolicyCtx
  | OtherCtx (n : nat).

Definition eqb (a b : key) : bool :=
  match a, b with
  | FileHeaderCtx, FileHeaderCtx | FileModelCtx, FileModelCtx
  | SavePathCtx, SavePathCtx | GinCtx, GinCtx | HTTPCtx, HTTPCtx
  | UploadPolicyCtx, UploadPolicyCtx => true
  | OtherCtx n, OtherCtx m => Nat.eqb n m
  | _, _ => false
  end.

End fsctx.

(** [FileHeader]: the interface of an upload request, by its getters. *)
Record FileHeader := mkFileHeader {
  GetSize : Z;
  GetFileName : string;
  GetVirtualPath : string
}.

Module model.

Record Policy := mkPolicy {
  Type_ : string;
  AutoRename : bool;
  DirNameRule : string;
  FileNameRule : string
}.

(** Go's zero value of [model.Policy] ([var anonymousPolicy model.Policy]) *)
Definition zeroPolicy : Policy := mkPolicy "" false "" "".

Record User := mkUser { ID : Z; Nick : string; UserPolicy : Policy }.

Record File := mkFile { SourceName : string }.

End model.

Module serializer.

Record UploadPolicy := mkUploadPolicy {
  SavePath : string;
  FileName : string;
  UpAutoRename : bool
}.

Record UploadCredential := mkUploadCredential { Token : string }.

Record UploadSession := mkUploadSession { UID : Z; VirtualPath : string }.

Inductive Code := CodeInternalSetting | CodeEncryptError.

End serializer.

(** Go's [error] values met by this file: [serializer.NewError] wrappers,
    [*strconv.NumError], and whatever a collaborator reports. *)
Inductive error :=
  | AppError (code : serializer.Code) (msg : string) (raw : error)
  | NumErr (e : strconv.NumError)
  | ErrorString (msg : string).

(** ** Go standard library: context *)

Module context.

(** The [Done()] channel of a context: [Never] is the nil channel, [Chan i] a
    channel that the environment may close. *)
Inductive Signal := Never | Chan (id : nat).

(** A context is a root with its cancellation signal, extended by
    [context.WithValue]; the values are the dynamic types stored under the
    [fsctx] keys.  [VGin] is a [*gin.Context], given by the context of its
    request ([ginCtx.Request.Context()]). *)
Inductive Context :=
  | Root (done : Signal)
  | WithValue (parent : Context) (k : fsctx.key) (v : Value)
with Value :=
  | VFileHeader (f : FileHeader)
  | VFile (f : model.File)
  | VString (s : string)
  | VUploadPolicy (p : serializer.UploadPolicy)
  | VGin (request_context : Context)
  | VContext (c : Context)
  | VOther (tag : nat).

(** [ctx.Value(k)]; [None] is the nil interface. *)
Fixpoint Value_of (c : Context) (k : fsctx.key) : option Value :=
  match c with
  | Root _ => None
  | WithValue parent k' v =>
      if fsctx.eqb k' k then Some v else Value_of parent k
  end.

(** [ctx.Done()]: a value context shares the channel of its parent. *)
Fixpoint Done (c : Context) : Signal :=
  match c with
  | Root s => s
  | WithValue parent _ _ => Done parent
  end.

(** The type assertion [v.(context.Context)].  A [*gin.Context] implements
    the interface; its [Done()] is the nil channel and it holds no [fsctx]
    value. *)
Definition as_context (v : Value) : option Context :=
  match v with
  | VContext c => Some c
  | VGin _ => Some (Root Never)
  | _ => None
  end.

Definition is_closed (closed : list nat) (s : Signal) : bool :=
  match s with
  | Never => false
  | Chan i => bool_decide (i ∈ closed)
  end.

End context.

Import context.

(** ** The file system and its collaborators *)

(** A registered hook, by identity; what it does is up to the environment. *)
Definition Hook := nat.

Inductive Stage := BeforeUpload | AfterUpload | AfterValidateFailed | AfterUploadCanceled.

Definition Stage_eqb (a b : Stage) : bool :=
  match a, b with
  | BeforeUpload, BeforeUpload | AfterUpload, AfterUpload
  | AfterValidateFailed, AfterValidateFailed
  | AfterUploadCanceled, AfterUploadCanceled => true
  | _, _ => false
  end.

(** [FileSystem]: the owner and the hook table; [Hooks fs st = None] is a nil
    hook field.  The storage handler is reached through the [Put] and [Token]
    actions below. *)
Record FileSystem := mkFileSystem {
  User : model.User;
  Hooks : Stage -> option (list Hook)
}.

Inductive LogLevel := DebugLevel | InfoLevel.

Inductive LogArg := LStr (s : string) | LNum (n : Z) | LErr (e : error).

(** Calls that leave this file.  [ATrigger] carries the stage whose hook field
    was passed to [fs.Trigger]; [AGo] is the [go fs.CancelUpload(...)]
    statement; [AAwaitDone] is a blocking receive from a [Done()] channel and
    [APollDone] the non-blocking [select] with a [default] branch. *)
Inductive action :=
  | ATrigger (ctx : Context) (st : Stage) (hooks : option (list Hook))
  | APut (ctx : Context) (file : FileHeader) (dst : string) (size : Z)
  | AGo (ctx : Context) (path : string) (file : FileHeader)
  | AGeneratePath (p : model.Policy) (uid : Z) (origin : string)
  | AGenerateFileName (p : model.Policy) (uid : Z) (origin : string)
  | ALog (lvl : LogLevel) (format : string) (args : list LogArg)
  | AGetSettingByNames (names : list string)
  | ARandStringRunes (n : Z)
  | AToken (ctx : Context) (ttl : Z) (key : string)
  | ACacheSet (key : string) (v : serializer.UploadSession) (ttl : Z)
  | AAwaitDone (s : Signal)
  | APollDone (s : Signal).

Definition result (a : action) : Type :=
  match a with
  | ATrigger _ _ _ => option error
  | APut _ _ _ _ => option error
  | AGo _ _ _ => unit
  | AGeneratePath _ _ _ => string
  | AGenerateFileName _ _ _ => string
  | ALog _ _ _ => unit
  | AGetSettingByNames _ => gmap string string
  | ARandStringRunes _ => string
  | AToken _ _ _ => (serializer.UploadCredential * option error)%type
  | ACacheSet _ _ _ => option error
  | AAwaitDone _ => unit
  | APollDone _ => bool
  end.

Inductive PanicKind := InterfaceConversion.

(** Programs: return, perform a call and continue with its result, or panic. *)
Inductive Prog (R : Type) : Type :=
  | Ret (r : R)
  | Act (a : action) (k : result a -> Prog R)
  | Panic (p : PanicKind).

Arguments Ret {R} r.
Arguments Act {R} a k.
Arguments Panic {R} p.

Fixpoint bind {A B} (m : Prog A) (f : A -> Prog B) : Prog B :=
  match m with
  | Ret r => f r
  | Act a k => Act a (fun x => bind (k x) f)
  | Panic p => Panic p
  end.

#[global] Instance Prog_ret : MRet Prog := @Ret.
#[global] Instance Prog_bind : MBind Prog := fun A B f m => bind m f.

Definition call (a : action) : Prog (result a) := Act a Ret.

(** ** pkg/filesystem/upload.go *)

(** [fs.Trigger(ctx, fs.<stage>)] *)
Definition Trigger (fs : FileSystem) (ctx : Context) (st : Stage) : Prog (option error) :=
  call (ATrigger ctx st (Hooks fs st)).

Definition Log (lvl : LogLevel) (format : string) (args : list LogArg) : Prog unit :=
  call (ALog lvl format args).

(** GenerateSavePath: the arguments of [filepath.Join] are evaluated left to
    right, directory rule first. *)
Definition GenerateSavePath (fs : FileSystem) (ctx : Context) (file : FileHeader)
  : Prog string :=
  if negb (model.ID (User fs) =? 0) then
    dir ← call (AGeneratePath (model.UserPolicy (User fs)) (model.ID (User fs))
                  (GetVirtualPath file));
    name ← call (AGenerateFileName (model.UserPolicy (User fs)) (model.ID (User fs))
                   (GetFileName file));
    mret (filepath.Join dir name)
  else
    let anonymousPolicy :=
      match Value_of ctx fsctx.UploadPolicyCtx with
      | Some (VUploadPolicy policy) =>
          model.mkPolicy "remote" (serializer.UpAutoRename policy)
            (serializer.SavePath policy) (serializer.FileName policy)
      | _ => model.zeroPolicy
      end in
    dir ← call (AGeneratePath anonymousPolicy 0 "");
    name ← call (AGenerateFileName anonymousPolicy 0 (GetFileName file));
    mret (filepath.Join dir name).

(** Upload *)
Definition Upload (fs : FileSystem) (ctx : Context) (file : FileHeader)
  : Prog (option error) :=
  let ctx := WithValue ctx fsctx.FileHeaderCtx (VFileHeader file) in
  err ← Trigger fs ctx BeforeUpload;
  match err with
  | Some e => mret (Some e)
  | None =>
      savePath ← match Value_of ctx fsctx.FileModelCtx with
                 | Some (VFile originFile) => mret (model.SourceName originFile)
                 | _ => GenerateSavePath fs ctx file
                 end;
      let ctx := WithValue ctx fsctx.SavePathCtx (VString savePath) in
      _ ← call (AGo ctx savePath file);
      err ← call (APut ctx file savePath (GetSize file));
      match err with
      | Some e => mret (Some e)
      | None =>
          err ← Trigger fs ctx AfterUpload;
          match err with
          | Some e =>
              followUpErr ← Trigger fs ctx AfterValidateFailed;
              _ ← match followUpErr with
                  | Some e2 => Log DebugLevel "AfterValidateFailed 钩子执行失败，%s" [LErr e2]
                  | None => mret tt
                  end;
              mret (Some e)
          | None =>
              _ ← Log InfoLevel "新文件PUT:%s , 大小:%d, 上传者:%s"
                    [LStr (GetFileName file); LNum (GetSize file);
                     LStr (model.Nick (User fs))];
              mret None
          end
      end
  end.

(** The request-scoped context [CancelUpload] waits on; [None] is the failed
    unchecked assertion [ctx.Value(fsctx.HTTPCtx).(context.Context)]. *)
Definition request_context (ctx : Context) : option Context :=
  match Value_of ctx fsctx.GinCtx with
  | Some (VGin reqctx) => Some reqctx
  | _ =>
      match Value_of ctx fsctx.HTTPCtx with
      | Some v => as_context v
      | None => None
      end
  end.

(** CancelUpload *)
Definition CancelUpload (fs : FileSystem) (ctx : Context) (path : string)
    (file : FileHeader) : Prog unit :=
  match request_context ctx with
  | None => Panic InterfaceConversion
  | Some reqContext =>
      _ ← call (AAwaitDone (Done reqContext));
      finished ← call (APollDone (Done ctx));
      if finished : bool then mret tt
      else
        _ ← Log DebugLevel "客户端取消上传" [];
        match Hooks fs AfterUploadCanceled with
        | None => mret tt
        | Some _ =>
            let ctx := WithValue ctx fsctx.SavePathCtx (VString path) in
            err ← Trigger fs ctx AfterUploadCanceled;
            match err with
            | Some e => Log DebugLevel "执行 AfterUploadCanceled 钩子出错，%s" [LErr e]
            | None => mret tt
            end
        end
  end.

(** Go's [int(x)] for an [int64] on a platform with 64-bit [int]. *)
Definition int_of_int64 (x : Z) : Z :=
  let m := x mod 2 ^ 64 in if m <? 2 ^ 63 then m else m - 2 ^ 64.

(** One of the two TTL settings: the default when the key is missing, the
    parsed value when present, or the [serializer.NewError] of the failure. *)
Definition read_ttl (ttls : gmap string string) (name : string) (default : Z)
    (msg : string) : Z + error :=
  match ttls !! name with
  | Some ttlStr =>
      match strconv.ParseInt ttlStr with
      | (_, Some err) =>
          inr (AppError serializer.CodeInternalSetting msg (NumErr err))
      | (v, None) => inl v
      end
  | None => inl default
  end.

(** GetUploadToken *)
Definition GetUploadToken (fs : FileSystem) (ctx : Context) (path : string)
    (size : Z) : Prog (option serializer.UploadCredential * option error) :=
  ttls ← call (AGetSettingByNames ["upload_credential_timeout"; "upload_session_timeout"]);
  match read_ttl ttls "upload_credential_timeout" 3600 "上传凭证有效期设置无效" with
  | inr e => mret (None, Some e)
  | inl credentialTTL =>
      match read_ttl ttls "upload_session_timeout" 86400 "上传会话有效期设置无效" with
      | inr e => mret (None, Some e)
      | inl callBackSessionTTL =>
          callbackKey ← call (ARandStringRunes 32);
          '(credential, err) ← call (AToken ctx credentialTTL callbackKey);
          match err with
          | Some e =>
              mret (None, Some (AppError serializer.CodeEncryptError "无法获取上传凭证" e))
          | None =>
              err ← call (ACacheSet ("callback_" ++ callbackKey)
                            (serializer.mkUploadSession (model.ID (User fs)) path)
                            (int_of_int64 callBackSessionTTL));
              match err with
              | Some e => mret (None, Some e)
              | None => mret (Some credential, None)
              end
          end
      end
  end.

(** ** Running a program against an environment *)

(** The environment answers every call from its own state [W]. *)
Definition Env (W : Type) := forall a : action, W -> result a * W.

Record Call := mkCall { call_action : action; call_result : result call_action }.

Inductive Outcome (R : Type) := Returned (r : R) | Panicked (p : PanicKind).
Arguments Returned {R} r.
Arguments Panicked {R} p.

Fixpoint run {W R} (env : Env W) (p : Prog R) (w : W) : Outcome R * W * list Call :=
  match p with
  | Ret r => (Returned r, w, [])
  | Panic k => (Panicked k, w, [])
  | Act a k =>
      let '(x, w1) := env a w in
      let '(o, w2, tr) := run env (k x) w1 in
      (o, w2, mkCall a x :: tr)
  end.

(** ** Reading a list of calls *)

(** [fs.Trigger] calls for one stage: the context passed and the answer *)
Definition as_trigger (st : Stage) (c : Call) : option (Context * option error) :=
  match c with
  | mkCall a r =>
      match a return result a -> option (Context * option error) with
      | ATrigger ctx st' _ => fun r => if Stage_eqb st' st then Some (ctx, r) else None
      | _ => fun _ => None
      end r
  end.

Definition triggers (st : Stage) (tr : list Call) : list (Context * option error) :=
  omap (as_trigger st) tr.

(** [Handler.Put] calls: context, destination and answer *)
Definition as_put (c : Call) : option (Context * string * option error) :=
  match c with
  | mkCall a r =>
      match a return result a -> option (Context * string * option error) with
      | APut ctx _ dst _ => fun r => Some (ctx, dst, r)
      | _ => fun _ => None
      end r
  end.

Definition puts (tr : list Call) : list (Context * string * option error) :=
  omap as_put tr.

(** naming-rule expansions, the work of [GenerateSavePath] *)
Definition is_rule_call (c : Call) : bool :=
  match call_action c with
  | AGeneratePath _ _ _ | AGenerateFileName _ _ _ => true
  | _ => false
  end.

Definition rule_calls (tr : list Call) : list Call := filter is_rule_call tr.

(** [go fs.CancelUpload(ctx, path, file)] statements: the path handed over *)
Definition as_spawn (c : Call) : option string :=
  match call_action c with
  | AGo _ path _ => Some path
  | _ => None
  end.

Definition spawns (tr : list Call) : list string := omap as_spawn tr.

(** log lines *)
Definition as_log (c : Call) : option (LogLevel * string * list LogArg) :=
  match call_action c with
  | ALog lvl format args => Some (lvl, format, args)
  | _ => None
  end.

Definition logs (tr : list Call) : list (LogLevel * string * list LogArg) :=
  omap as_log tr.

(** [Handler.Token] calls: TTL, correlation key, answer *)
Definition as_token (c : Call)
  : option (Z * string * (serializer.UploadCredential * option error)) :=
  match c with
  | mkCall a r =>
      match a return result a -> option (Z * string * (serializer.UploadCredential * option error)) with
      | AToken _ ttl key => fun r => Some (ttl, key, r)
      | _ => fun _ => None
      end r
  end.

Definition tokens (tr : list Call) := omap as_token tr.

(** [cache.Set] calls: key, session, TTL, answer *)
Definition as_cache_set (c : Call)
  : option (string * serializer.UploadSession * Z * option error) :=
  match c with
  | mkCall a r =>
      match a return result a -> option (string * serializer.UploadSession * Z * option error) with
      | ACacheSet key v ttl => fun r => Some (key, v, ttl, r)
      | _ => fun _ => None
      end r
  end.

Definition cache_sets (tr : list Call) := omap as_cache_set tr.

(** ** The cancellation watcher as a thread *)

(** The watcher runs beside an environment that closes [Done()] channels.  A
    [Close i] step closes channel [i]; a [Sched] step lets the watcher perform
    its next call.  A receive from a channel that is still open leaves the
    watcher where it is. *)
Inductive Label := Close (i : nat) | Sched.

Record Sys (W : Type) := mkSys {
  closed : list nat;
  thread : Prog unit;
  world : W;
  calls : list Call
}.
Arguments mkSys {W} closed thread world calls.
Arguments closed {W} s.
Arguments thread {W} s.
Arguments world {W} s.
Arguments calls {W} s.

Definition sys_step {W} (env : Env W) (s : Sys W) (l : Label) : Sys W :=
  match l with
  | Close i => mkSys (closed s ++ [i]) (thread s) (world s) (calls s)
  | Sched =>
      match thread s with
      | Act a k =>
          match a return (result a -> Prog unit) -> Sys W with
          | AAwaitDone sg => fun k =>
              if is_closed (closed s) sg
              then mkSys (closed s) (k tt) (world s)
                     (calls s ++ [mkCall (AAwaitDone sg) tt])
              else s
          | APollDone sg => fun k =>
              let b := is_closed (closed s) sg in
              mkSys (closed s) (k b) (world s) (calls s ++ [mkCall (APollDone sg) b])
          | a' => fun k =>
              let '(x, w1) := env a' (world s) in
              mkSys (closed s) (k x) w1 (calls s ++ [mkCall a' x])
          end k
      | _ => s
      end
  end.

Definition sys_run {W} (env : Env W) (s : Sys W) (sched : list Label) : Sys W :=
  fold_left (sys_step env) sched s.

(** the watcher of one upload, before anything happened *)
Definition watch {W} (fs : FileSystem) (ctx : Context) (path : string)
    (file : FileHeader) (w : W) : Sys W :=
  mkSys [] (CancelUpload fs ctx path file) w [].

(** how often [AfterUploadCanceled] was fired *)
Definition fired {W} (s : Sys W) : nat :=
  length (triggers AfterUploadCanceled (calls s)).

(** channels closed by a schedule *)
Definition closed_by (sched : list Label) : list nat :=
  omap (fun l => match l with Close i => Some i | Sched => None end) sched.

Definition is_sched (l : Label) : bool :=
  match l with Sched => true | Close _ => false end.

Definition scheds (sched : list Label) : nat := length (filter is_sched sched).


(** The program points of [CancelUpload], once the request context [rc] is
    known: at the inner [select], at the debug line of the [default] branch,
    at the nil test and the trigger, and at the report of a failed hook. *)
Definition watch_report (e : error) : Prog unit :=
  Log DebugLevel "执行 AfterUploadCanceled 钩子出错，%s" [LErr e].

Definition watch_fire (fs : FileSystem) (ctx : Context) (path : string) : Prog unit :=
  match Hooks fs AfterUploadCanceled with
  | None => mret tt
  | Some _ =>
      err ← Trigger fs (WithValue ctx fsctx.SavePathCtx (VString path)) AfterUploadCanceled;
      match err with
      | Some e => watch_report e
      | None => mret tt
      end
  end.

Definition watch_log (fs : FileSystem) (ctx : Context) (path : string) : Prog unit :=
  _ ← Log DebugLevel "客户端取消上传" []; watch_fire fs ctx path.

Definition watch_poll (fs : FileSystem) (ctx : Context) (path : string) : Prog unit :=
  finished ← call (APollDone (Done ctx));
  if finished : bool then mret tt else watch_log fs ctx path.

(** Where the watcher stands.  [After] is any point behind the trigger,
    [Quiet] the end reached without it. *)
Inductive Phase := AtAwait | AtPoll | AtLog | AtTrigger | After | Quiet.

Definition stands (fs : FileSystem) (ctx : Context) (path : string)
    (file : FileHeader) (ph : Phase) (p : Prog unit) : Prop :=
  match ph with
  | AtAwait => p = CancelUpload fs ctx path file
  | AtPoll => p = watch_poll fs ctx path
  | AtLog => p = watch_log fs ctx path
  | AtTrigger => p = watch_fire fs ctx path /\ Hooks fs AfterUploadCanceled <> None
  | After => p = Ret tt \/ exists e, p = watch_report e
  | Quiet => p = Ret tt
  end.

(** one step of the watcher, by phase: [req] and [op] are the two [Done()]
    channels, [registered] tells whether the hook field is not nil *)
Definition phase_step (req op : Signal) (registered : bool) (cl : list nat)
    (l : Label) (ph : Phase) : Phase :=
  match l, ph with
  | Close _, _ => ph
  | Sched, AtAwait => if is_closed cl req then AtPoll else AtAwait
  | Sched, AtPoll => if is_closed cl op then Quiet else AtLog
  | Sched, AtLog => if registered then AtTrigger else Quiet
  | Sched, AtTrigger => After
  | Sched, After => After
  | Sched, Quiet => Quiet
  end.

Definition closes (l : Label) : list nat :=
  match l with Close i => [i] | Sched => [] end.



Definition firings (ph : Phase) : nat :=
  match ph with After => 1%nat | _ => 0%nat end.

(** ** A scripted environment

    Answers fixed in advance, for running the programs on concrete inputs. *)
Record Script := mkScript {
  on_trigger : Stage -> option error;
  on_put : option error;
  rule_path : model.Policy -> Z -> string -> string;
  rule_file : model.Policy -> Z -> string -> string;
  settings : gmap string string;
  rand : string;
  on_token : serializer.UploadCredential * option error;
  on_cache : option error
}.

Definition scripted (sc : Script) : Env unit :=
  fun a w =>
    (match a return result a with
     | ATrigger _ st _ => on_trigger sc st
     | APut _ _ _ _ => on_put sc
     | AGo _ _ _ => tt
     | AGeneratePath p uid origin => rule_path sc p uid origin
     | AGenerateFileName p uid origin => rule_file sc p uid origin
     | ALog _ _ _ => tt
     | AGetSettingByNames _ => settings sc
     | ARandStringRunes _ => rand sc
     | AToken _ _ _ => on_token sc
     | ACacheSet _ _ _ => on_cache sc
     | AAwaitDone _ => tt
     | APollDone _ => false
     end, w).

(** ** Naming rules for concrete scenarios *)

Module rules.

(** replace every occurrence of [old] (not empty) by [new], left to right *)
Fixpoint replace_from (old new : string) (skip : nat) (s : string) : string :=
  match s with
  | EmptyString => ""
  | String c rest =>
      match skip with
      | S n => replace_from old new n rest
      | O =>
          if String.prefix old s
          then new ++ replace_from old new (String.length old - 1) rest
          else String c (replace_from old new 0 rest)
      end
  end.

Definition expand (table : list (string * string)) (rule : string) : string :=
  fold_left (fun r kv => replace_from (fst kv) (snd kv) 0 r) table rule.

(** Modelled from the spec: [Policy.GeneratePath] (models/policy.go) is not
    under src/.  The spec calls the naming rules templated string-expansion
    functions of the owner's identity and the request's virtual path; the
    placeholders are written [{uid}] and [{path}] here. *)
Definition GeneratePath (p : model.Policy) (uid : Z) (origin : string) : string :=
  expand [("{uid}", pretty uid); ("{path}", origin)] (model.DirNameRule p).

(** Modelled from the spec: [Policy.GenerateFileName] (models/policy.go) is
    not under src/.  The file rule is expanded with the owner's identity and
    the client-reported file name, for which the spec's scenario writes
    [{name}]. *)
Definition GenerateFileName (p : model.Policy) (uid : Z) (origin : string) : string :=
  expand [("{uid}", pretty uid); ("{name}", origin)] (model.FileNameRule p).

End rules.

(** an environment in which every collaborator succeeds and the naming rules
    are the ones above *)
Definition quiet : Script :=
  mkScript (fun _ => None) None rules.GeneratePath rules.GenerateFileName ∅
    "k" (serializer.mkUploadCredential "t", None) None.


(** the anonymous file system: a zero-valued owner, no hooks *)
Definition anonymous_fs : FileSystem :=
  mkFileSystem (model.mkUser 0 "" model.zeroPolicy) (fun _ => None).

(** a context declaring the upload policy of the anonymous scenario *)
Definition declared_ctx : Context :=
  WithValue (Root Never) fsctx.UploadPolicyCtx
    (VUploadPolicy (serializer.mkUploadPolicy "/anon" "{name}" false)).

(** ** Concrete requests and environments *)

(** an authenticated owner with every hook registered *)
Definition owner_fs : FileSystem :=
  mkFileSystem
    (model.mkUser 1 "admin" (model.mkPolicy "local" false "/uploads/{uid}" "{name}"))
    (fun _ => Some [0%nat]).

(** a request arriving through gin: the request context closes channel 0,
    the operation context channel 1 *)
Definition plain_ctx : Context :=
  WithValue (Root (Chan 1)) fsctx.GinCtx (VGin (Root (Chan 0))).

Definition update_ctx : Context :=
  WithValue plain_ctx fsctx.FileModelCtx (VFile (model.mkFile "/uploads/1/old.bin")).

(** a context with neither a gin context nor an HTTP context *)
Definition bare_ctx : Context :=
  WithValue (Root (Chan 1)) fsctx.HTTPCtx (VString "http").

Definition req_file : FileHeader := mkFileHeader 5 "a.txt" "/".

Definition with_hooks (sc : Script) (f : Stage -> option error) : Script :=
  mkScript f (on_put sc) (rule_path sc) (rule_file sc) (settings sc) (rand sc)
    (on_token sc) (on_cache sc).

Definition with_put (sc : Script) (r : option error) : Script :=
  mkScript (on_trigger sc) r (rule_path sc) (rule_file sc) (settings sc) (rand sc)
    (on_token sc) (on_cache sc).

Definition with_settings (sc : Script) (m : gmap string string) : Script :=
  mkScript (on_trigger sc) (on_put sc) (rule_path sc) (rule_file sc) m (rand sc)
    (on_token sc) (on_cache sc).

Definition with_cache (sc : Script) (r : option error) : Script :=
  mkScript (on_trigger sc) (on_put sc) (rule_path sc) (rule_file sc) (settings sc)
    (rand sc) (on_token sc) r.

Definition before_fails : Script :=
  with_hooks quiet (fun st => match st with
                              | BeforeUpload => Some (ErrorString "quota")
                              | _ => None
                              end).

Definition put_fails : Script := with_put quiet (Some (ErrorString "disk")).

Definition after_fails_twice : Script :=
  with_hooks quiet (fun st => match st with
                              | AfterUpload => Some (ErrorString "E1")
                              | AfterValidateFailed => Some (ErrorString "E2")
                              | _ => None
                              end).

Definition bad_ttl : Script :=
  with_settings quiet {[ "upload_session_timeout" := "abc" ]}.

(** the request context ends, then the operation context, and only then is
    the watcher scheduled *)
Definition late_watcher : list Label :=
  [Close 0; Close 1; Sched; Sched; Sched; Sched; Sched].

(** the request context ends and the watcher runs at once *)
Definition prompt_watcher : list Label :=
  [Close 0; Sched; Sched; Close 1; Sched; Sched].
(** ** Decimal numerals

    What a TTL setting means: an optional sign followed by decimal digits,
    read as an integer. *)
Module decimal.

Fixpoint digits_value (s : string) (acc : Z) : Z :=
  match s with
  | EmptyString => acc
  | String c rest => digits_value rest (acc * 10 + default 0 (strconv.digit_of c))
  end.

Definition value (s : string) : option Z :=
  match s with
  | EmptyString => None
  | String c rest =>
      let neg := Ascii.eqb c "-"%char in
      let body := if Ascii.eqb c "+"%char || neg then rest else s in
      if strconv.numeric s
      then Some (if neg then - digits_value body 0 else digits_value body 0)
      else None
  end.

Definition int64 (v : Z) : bool := (- 2 ^ 63 <=? v) && (v <? 2 ^ 63).

End decimal.

(** the TTL a settings map prescribes: the default for a missing key, the
    value of a numeral that fits an [int64], nothing otherwise *)
Definition ttl_setting (ttls : gmap string string) (name : string) (default : Z)
  : option Z :=
  match ttls !! name with
  | None => Some default
  | Some s =>
      match decimal.value s with
      | Some v => if decimal.int64 v then Some v else None
      | None => None
      end
  end.

(** ** More readings of a list of calls *)

(** [util.RandStringRunes] calls: length asked for and string drawn *)
Definition as_rand (c : Call) : option (Z * string) :=
  match c with
  | mkCall a r =>
      match a return result a -> option (Z * string) with
      | ARandStringRunes n => fun r => Some (n, r)
      | _ => fun _ => None
      end r
  end.

Definition rands (tr : list Call) : list (Z * string) := omap as_rand tr.

(** the context a call hands to a collaborator, if it hands one *)
Definition call_ctx (c : Call) : option Context :=
  match call_action c with
  | ATrigger ctx _ _ | APut ctx _ _ _ | AGo ctx _ _ | AToken ctx _ _ => Some ctx
  | _ => None
  end.

(** [go fs.CancelUpload(ctx, path, file)] statements, with all arguments *)
Definition as_spawned (c : Call) : option (Context * string * FileHeader) :=
  match call_action c with
  | AGo ctx path file => Some (ctx, path, file)
  | _ => None
  end.

Definition spawned (tr : list Call) : list (Context * string * FileHeader) :=
  omap as_spawned tr.

(** what the watcher of an upload may call: the two channel operations, debug
    log lines, and the [AfterUploadCanceled] hooks of [fs] with the save path
    bound in the context *)
Definition watcher_call (fs : FileSystem) (ctx : Context) (path : string)
    (c : Call) : Prop :=
  match call_action c with
  | AAwaitDone _ | APollDone _ | ALog DebugLevel _ _ => True
  | ATrigger c' st hooks =>
      c' = WithValue ctx fsctx.SavePathCtx (VString path) /\
      st = AfterUploadCanceled /\ hooks = Hooks fs AfterUploadCanceled
  | _ => False
  end.

(** answers of the naming-rule calls, in order *)
Definition as_rule_answer (c : Call) : option string :=
  match c with
  | mkCall a r =>
      match a return result a -> option string with
      | AGeneratePath _ _ _ | AGenerateFileName _ _ _ => fun r => Some r
      | _ => fun _ => None
      end r
  end.

Definition rule_answers (tr : list Call) : list string := omap as_rule_answer tr.

(** the program of the watcher at each point of [CancelUpload], and the number
    of calls it may still make from there *)
Inductive Point := PAwait | PPoll | PLog | PFire | PReport (e : error) | PEnd.

Definition program_at (fs : FileSystem) (ctx : Context) (path : string)
    (file : FileHeader) (pt : Point) : Prog unit :=
  match pt with
  | PAwait => CancelUpload fs ctx path file
  | PPoll => watch_poll fs ctx path
  | PLog => watch_log fs ctx path
  | PFire => watch_fire fs ctx path
  | PReport e => watch_report e
  | PEnd => Ret tt
  end.

Definition calls_left (pt : Point) : nat :=
  match pt with
  | PAwait => 5 | PPoll => 4 | PLog => 3 | PFire => 2 | PReport _ => 1 | PEnd => 0
  end%nat.

Definition with_token (sc : Script) (r : serializer.UploadCredential * option error)
  : Script :=
  mkScript (on_trigger sc) (on_put sc) (rule_path sc) (rule_file sc) (settings sc)
    (rand sc) r (on_cache sc).

(** the credential TTL is configured as "-5" *)
Definition negative_ttl : Script :=
  with_settings quiet {[ "upload_credential_timeout" := "-5" ]}.

Definition token_fails : Script :=
  with_token quiet (serializer.mkUploadCredential "", Some (ErrorString "signer")).

Definition cancel_hook_fails : Script :=
  with_hooks quiet (fun st => match st with
                              | AfterUploadCanceled => Some (ErrorString "rm")
                              | _ => None
                              end).

(** a context whose request context is a [*gin.Context] stored under
    [HTTPCtx] *)
Definition gin_as_http_ctx : Context :=
  WithValue (Root (Chan 1)) fsctx.HTTPCtx (VGin (Root (Chan 0))).

(** ** Path components *)

(** free of separators *)
Definition no_slash (c : string) : bool :=
  forallb (fun a => negb (Ascii.eqb a "/"%char)) (list_ascii_of_string c).

(** a component that [Clean] keeps and can backtrack over: not empty, not
    [.] or [..], free of separators *)
Definition regular (c : string) : bool :=
  negb (String.eqb c "") && negb (String.eqb c ".") && negb (String.eqb c "..")
  && no_slash c.

(** the shape of the output of [clean_components], most recent component
    first: regular components, then (for a path that is not rooted) the
    leading [..] components *)
Definition tidy (rooted : bool) (out : list string) : Prop :=
  exists regs dots,
    out = (regs ++ dots)%list /\
    Forall (fun c => regular c = true) regs /\
    Forall (fun c => c = "..") dots /\
    (rooted = true -> dots = []).

(** ** Settings and requests for further concrete runs *)

(** the TTL a setting yields when [GetUploadToken] reads it: the default for a
    missing key, the parsed value of a present one *)
Definition accepted_ttl (ttls : gmap string string) (name : string)
    (default v : Z) : Prop :=
  match ttls !! name with
  | None => v = default
  | Some s => strconv.ParseInt s = (v, None)
  end.

(** both TTLs configured, with values other than the defaults *)
Definition good_ttl : Script :=
  with_settings quiet
    {[ "upload_credential_timeout" := "120"; "upload_session_timeout" := "600" ]}.





(** * Properties *)

(** ** strconv *)

Lemma digit_of_lt c d : strconv.digit_of c = Some d -> 0 <= d < 10.
Proof.
  unfold strconv.digit_of.
  destruct (_ && _) eqn:E; [|discriminate]. intros [= <-].
  apply andb_prop in E as [E1 E2]. lia.
Qed.

Lemma letter_of_ge c d : strconv.letter_of c = Some d -> 10 <= d.
Proof.
  unfold strconv.letter_of. cbn zeta.
  match goal with |- context [if ?b && ?b' then Some _ else None] =>
    destruct (b && b') eqn:E end; [|discriminate].
  intros [= <-]. apply andb_prop in E as [E1 E2]. lia.
Qed.

(** A string with a byte that is not a digit stops the digit loop with an
    error: a syntax error at that byte, or a range error before it. *)
Lemma ParseUint_loop_not_digits s n :
  strconv.all_digits s = false ->
  snd (strconv.ParseUint_loop s n) = Some strconv.ErrSyntax \/
  strconv.ParseUint_loop s n = (strconv.maxUint64, Some strconv.ErrRange).
Proof.
  revert n. induction s as [|c rest IH]; intros n; [discriminate|].
  unfold strconv.all_digits. cbn [list_ascii_of_string forallb strconv.ParseUint_loop].
  destruct (strconv.digit_of c) as [d|] eqn:Ed.
  - cbn [andb]. intros Hrest. pose proof (digit_of_lt _ _ Ed).
    destruct (10 <=? d) eqn:E10; [lia|].
    destruct (_ <=? n); [auto|]. cbn zeta.
    destruct (_ <? _); [auto|]. apply IH, Hrest.
  - intros _. destruct (strconv.letter_of c) as [d|] eqn:El; [|auto].
    apply letter_of_ge in El. destruct (10 <=? d) eqn:E10; [auto|lia].
Qed.

Lemma ParseInt_not_numeric s :
  strconv.numeric s = false -> exists ne, snd (strconv.ParseInt s) = Some ne.
Proof.
  destruct s as [|c rest]; [cbn; eauto|].
  unfold strconv.numeric, strconv.ParseInt. cbn zeta.
  set (neg := Ascii.eqb c "-"%char).
  set (body := if Ascii.eqb c "+"%char || neg then rest else String c rest).
  intros Hn.
  assert (snd (strconv.ParseUint body) = Some strconv.ErrSyntax \/
          strconv.ParseUint body = (strconv.maxUint64, Some strconv.ErrRange)) as [H|H].
  { destruct body as [|c' body']; [cbn; auto|].
    cbn [String.eqb negb andb] in Hn.
    apply ParseUint_loop_not_digits, Hn. }
  - destruct (strconv.ParseUint body) as [un [[]|]]; cbn in H; try discriminate. cbn. eauto.
  - rewrite H. destruct neg; cbn; eauto.
Qed.

Section Pipeline.

Context {W : Type} (env : Env W).

(** Both branches of [GenerateSavePath] make exactly two calls, the directory
    rule and then the file rule, and return the join of the answers. *)
Lemma run_GenerateSavePath fs ctx file w :
  exists p uid origin d w1 n w2,
    env (AGeneratePath p uid origin) w = (d, w1) /\
    env (AGenerateFileName p uid (GetFileName file)) w1 = (n, w2) /\
    run env (GenerateSavePath fs ctx file) w =
      (Returned (filepath.Join d n), w2,
       [mkCall (AGeneratePath p uid origin) d;
        mkCall (AGenerateFileName p uid (GetFileName file)) n]).
Proof.
  unfold GenerateSavePath.
  destruct (negb (model.ID (User fs) =? 0)); cbn;
    match goal with
    | |- context [env (AGeneratePath ?p ?u ?o) w] =>
        destruct (env (AGeneratePath p u o) w) as [d w1] eqn:E1;
        destruct (env (AGenerateFileName p u (GetFileName file)) w1) as [n w2] eqn:E2;
        exists p, u, o, d, w1, n, w2
    end; cbn; rewrite ?E1; cbn; rewrite ?E2; auto.
Qed.

Lemma run_bind {A B} (m : Prog A) (f : A -> Prog B) w :
  run env (bind m f) w =
    match run env m w with
    | (Returned a, w1, tr1) =>
        let '(o, w2, tr2) := run env (f a) w1 in (o, w2, (tr1 ++ tr2)%list)
    | (Panicked p, w1, tr1) => (Panicked p, w1, tr1)
    end.
Proof.
  revert w; induction m as [r|a k IH|p]; intros w; cbn.
  - destruct (run env (f r) w) as [[o w2] tr2]; reflexivity.
  - destruct (env a w) as [x w1]. rewrite IH.
    destruct (run env (k x) w1) as [[[r|p] w2] tr1]; cbn; auto.
    destruct (run env (f r) w2) as [[o w3] tr2]; reflexivity.
  - reflexivity.
Qed.

(** The destination step of [Upload]: an update reuses the recorded source
    name without any call; otherwise [GenerateSavePath] makes its two rule
    calls.  Either way a path comes back. *)
Lemma run_destination fs ctx ctx' file w :
  exists savePath w1 R,
    run env (match Value_of ctx fsctx.FileModelCtx with
             | Some (VFile originFile) => mret (model.SourceName originFile)
             | _ => GenerateSavePath fs ctx' file
             end) w = (Returned savePath, w1, R) /\
    (forall st, triggers st R = []) /\ puts R = [] /\ spawns R = [] /\ logs R = [] /\
    (forall originFile, Value_of ctx fsctx.FileModelCtx = Some (VFile originFile) ->
       savePath = model.SourceName originFile /\ R = [] /\ w1 = w).
Proof.
  destruct (run_GenerateSavePath fs ctx' file w)
    as (p & uid & origin & d & w1 & n & w2 & E1 & E2 & EG).
  destruct (Value_of ctx fsctx.FileModelCtx) as [v|] eqn:EV.
  2:{ exists (filepath.Join d n), w2; eexists; split; [exact EG|].
      repeat (split; [solve [intros; reflexivity]|]). intros ? [=]. }
  destruct v;
    try (exists (filepath.Join d n), w2; eexists; split; [exact EG|];
         repeat (split; [solve [intros; reflexivity]|]); intros ? [=]).
  exists (model.SourceName f), w, [].
  repeat (split; [solve [intros; reflexivity]|]). intros ? [= <-]; auto.
Qed.

Ltac answer :=
  match goal with
  | |- context [env ?a ?w] =>
      let x := fresh "x" in let w' := fresh "w" in let E := fresh "E" in
      destruct (env a w) as [x w'] eqn:E; try destruct x; cbn
  end.

(** Every run of [Upload]: the [BeforeUpload] call, then (if it passed) the
    destination step [R], the watcher, [Put], and the hooks after it. *)
Lemma run_Upload fs ctx file w :
  let ctx1 := WithValue ctx fsctx.FileHeaderCtx (VFileHeader file) in
  let before r := mkCall (ATrigger ctx1 BeforeUpload (Hooks fs BeforeUpload)) r in
  (exists e w1, run env (Upload fs ctx file) w = (Returned (Some e), w1, [before (Some e)])) \/
  (exists savePath R out w' T,
     let ctx2 := WithValue ctx1 fsctx.SavePathCtx (VString savePath) in
     let go := mkCall (AGo ctx2 savePath file) tt in
     let put r := mkCall (APut ctx2 file savePath (GetSize file)) r in
     let after r := mkCall (ATrigger ctx2 AfterUpload (Hooks fs AfterUpload)) r in
     let failed r :=
       mkCall (ATrigger ctx2 AfterValidateFailed (Hooks fs AfterValidateFailed)) r in
     run env (Upload fs ctx file) w = (out, w', before None :: R ++ go :: T) /\
     ((forall st, triggers st R = []) /\ puts R = [] /\ spawns R = [] /\ logs R = []) /\
     (forall originFile, Value_of ctx fsctx.FileModelCtx = Some (VFile originFile) ->
        savePath = model.SourceName originFile /\ R = []) /\
     ((exists e, out = Returned (Some e) /\ T = [put (Some e)]) \/
      (out = Returned None /\
       T = [put None; after None;
            mkCall (ALog InfoLevel "新文件PUT:%s , 大小:%d, 上传者:%s"
                      [LStr (GetFileName file); LNum (GetSize file);
                       LStr (model.Nick (User fs))]) tt]) \/
      (exists e1, out = Returned (Some e1) /\
         T = [put None; after (Some e1); failed None]) \/
      (exists e1 e2, out = Returned (Some e1) /\
         T = [put None; after (Some e1); failed (Some e2);
              mkCall (ALog DebugLevel "AfterValidateFailed 钩子执行失败，%s" [LErr e2]) tt]))).
Proof.
  intros ctx1 before. subst before. unfold Upload, Trigger, call. cbn. fold ctx1.
  destruct (env _ w) as [[e0|] w1] eqn:E0; cbn.
  - left. eauto.
  - right. unfold mbind at 1, Prog_bind at 1. rewrite run_bind.
    destruct (run_destination fs ctx ctx1 file w1)
      as (savePath & w2 & R & -> & HT & HP & HS & HL & HU).
    exists savePath, R. cbn.
    assert (forall o, Value_of ctx fsctx.FileModelCtx = Some (VFile o) ->
              savePath = model.SourceName o /\ R = []) as HU'
      by (intros o Ho; destruct (HU o Ho) as (? & ? & ?); auto).
    repeat answer; do 3 eexists; (split; [reflexivity|]);
      (split; [auto|]); (split; [exact HU'|]); eauto 8.
Qed.

Lemma triggers_app st (l1 l2 : list Call) :
  triggers st (l1 ++ l2) = (triggers st l1 ++ triggers st l2)%list.
Proof. apply omap_app. Qed.

Lemma puts_app (l1 l2 : list Call) : puts (l1 ++ l2) = (puts l1 ++ puts l2)%list.
Proof. apply omap_app. Qed.

Lemma spawns_app (l1 l2 : list Call) : spawns (l1 ++ l2) = (spawns l1 ++ spawns l2)%list.
Proof. apply omap_app. Qed.

Lemma logs_app (l1 l2 : list Call) : logs (l1 ++ l2) = (logs l1 ++ logs l2)%list.
Proof. apply omap_app. Qed.

Lemma triggers_cons st c (l : list Call) :
  triggers st (c :: l) = (option_list (as_trigger st c) ++ triggers st l)%list.
Proof. unfold triggers. cbn. destruct (as_trigger st c); reflexivity. Qed.

Lemma puts_cons c (l : list Call) :
  puts (c :: l) = (option_list (as_put c) ++ puts l)%list.
Proof. unfold puts. cbn. destruct (as_put c); reflexivity. Qed.

Lemma spawns_cons c (l : list Call) :
  spawns (c :: l) = (option_list (as_spawn c) ++ spawns l)%list.
Proof. unfold spawns. cbn. destruct (as_spawn c); reflexivity. Qed.

Lemma logs_cons c (l : list Call) :
  logs (c :: l) = (option_list (as_log c) ++ logs l)%list.
Proof. unfold logs. cbn. destruct (as_log c); reflexivity. Qed.

(** The shape of a run, read through the projections. *)
Ltac read_run H :=
  destruct H as (savePath & R & ? & ? & T & Hrun & (HT & HP & HS & HL) & HU & Hcases);
  cbn zeta in Hrun;
  destruct Hcases as [(? & -> & ->)|[(-> & ->)|[(? & -> & ->)|(? & ? & -> & ->)]]].

(** C3: when the [BeforeUpload] hooks report an error, [Upload] returns that
    error at once: the single call of the run is that trigger, so the storage
    handler's [Put] is not called, [AfterUpload] and [AfterValidateFailed] are
    not triggered, no naming rule is expanded and no watcher is started. *)
Theorem Upload_BeforeUpload_error fs ctx file w out w' tr c e :
  run env (Upload fs ctx file) w = (out, w', tr) ->
  (c, Some e) ∈ triggers BeforeUpload tr ->
  out = Returned (Some e) /\
  tr = [mkCall (ATrigger (WithValue ctx fsctx.FileHeaderCtx (VFileHeader file))
                  BeforeUpload (Hooks fs BeforeUpload)) (Some e)] /\
  puts tr = [] /\ triggers AfterUpload tr = [] /\
  triggers AfterValidateFailed tr = [] /\ rule_calls tr = [] /\ spawns tr = [].
Proof.
  intros Hr Hin.
  destruct (run_Upload fs ctx file w) as [(e0 & w1 & H)|H].
  - rewrite H in Hr. injection Hr as <- <- <-.
    cbn in Hin. apply list_elem_of_singleton in Hin. injection Hin as -> ->.
    repeat split; reflexivity.
  - exfalso. read_run H; rewrite Hrun in Hr; injection Hr as <- <- <-;
      rewrite triggers_cons, triggers_app, HT in Hin; cbn in Hin;
      apply list_elem_of_singleton in Hin; discriminate.
Qed.

Ltac project H :=
  rewrite ?triggers_cons, ?triggers_app, ?puts_cons, ?puts_app, ?spawns_cons,
    ?spawns_app, ?logs_cons, ?logs_app in H;
  repeat match goal with
         | E : _ = [] |- _ => rewrite E in H
         | E : forall st, triggers st _ = [] |- _ => rewrite E in H
         end;
  cbn in H.

Ltac project_goal :=
  rewrite ?triggers_cons, ?triggers_app, ?puts_cons, ?puts_app, ?spawns_cons,
    ?spawns_app, ?logs_cons, ?logs_app;
  repeat match goal with
         | E : _ = [] |- _ => rewrite E
         | E : forall st, triggers st _ = [] |- _ => rewrite E
         end;
  cbn.

(** C8: when the storage handler's [Put] reports an error, [Upload] returns
    that very error; the [Put] call is the last call of the run, and neither
    [AfterUpload] nor [AfterValidateFailed] is triggered. *)
Theorem Upload_Put_error fs ctx file w out w' tr c dst e :
  run env (Upload fs ctx file) w = (out, w', tr) ->
  (c, dst, Some e) ∈ puts tr ->
  out = Returned (Some e) /\
  last tr = Some (mkCall (APut c file dst (GetSize file)) (Some e)) /\
  triggers AfterUpload tr = [] /\ triggers AfterValidateFailed tr = [].
Proof.
  intros Hr Hin.
  destruct (run_Upload fs ctx file w) as [(e0 & w1 & H)|H].
  - rewrite H in Hr. injection Hr as <- <- <-. cbn in Hin. inversion Hin.
  - read_run H; rewrite Hrun in Hr; injection Hr as <- <- <-; project Hin;
      apply list_elem_of_singleton in Hin; try discriminate.
    injection Hin as -> -> ->.
    split; [reflexivity|]. split.
    + rewrite app_comm_cons, last_app. reflexivity.
    + split; project_goal; reflexivity.
Qed.

(** C5: when the transfer succeeded, [AfterUpload] failed with [e1] and the
    compensation [AfterValidateFailed] failed with [e2], [Upload] returns
    [e1]; [e2] appears in one debug log line and nowhere in the result. *)
Theorem Upload_compensation_error fs ctx file w out w' tr c1 e1 c2 e2 :
  run env (Upload fs ctx file) w = (out, w', tr) ->
  (c1, Some e1) ∈ triggers AfterUpload tr ->
  (c2, Some e2) ∈ triggers AfterValidateFailed tr ->
  out = Returned (Some e1) /\
  logs tr = [(DebugLevel, "AfterValidateFailed 钩子执行失败，%s", [LErr e2])] /\
  exists c dst, puts tr = [(c, dst, None)].
Proof.
  intros Hr Hin1 Hin2.
  destruct (run_Upload fs ctx file w) as [(e0 & w1 & H)|H].
  - rewrite H in Hr. injection Hr as <- <- <-. cbn in Hin1. inversion Hin1.
  - read_run H; rewrite Hrun in Hr; injection Hr as <- <- <-;
      project Hin1; project Hin2;
      try (inversion Hin1; fail); try (inversion Hin2; fail);
      apply list_elem_of_singleton in Hin1; apply list_elem_of_singleton in Hin2;
      try discriminate.
    injection Hin1 as -> ->. injection Hin2 as -> ->.
    split; [reflexivity|]. split; project_goal; eauto.
Qed.

(** C4: when the context carries the stored object of an update, no naming
    rule is expanded in any run.  [BeforeUpload] is triggered once; when it
    passes, the watcher is started and [Put] is called, once each, with that
    object's recorded source name as destination and as the [SavePathCtx]
    binding of their context, whatever the owner's policy; when it fails,
    no watcher is started and [Put] is not called. *)
Theorem Upload_update_destination fs ctx file originFile w out w' tr :
  Value_of ctx fsctx.FileModelCtx = Some (VFile originFile) ->
  run env (Upload fs ctx file) w = (out, w', tr) ->
  rule_calls tr = [] /\
  (forall p, p ∈ spawns tr -> p = model.SourceName originFile) /\
  (forall c dst r, (c, dst, r) ∈ puts tr ->
     dst = model.SourceName originFile /\
     Value_of c fsctx.SavePathCtx = Some (VString (model.SourceName originFile))) /\
  (forall c, (c, None) ∈ triggers BeforeUpload tr ->
     exists c' r, puts tr = [(c', model.SourceName originFile, r)]) /\
  exists c0 r0,
    triggers BeforeUpload tr = [(c0, r0)] /\
    match r0 with
    | None =>
        exists c' r,
          puts tr = [(c', model.SourceName originFile, r)] /\
          spawned tr = [(c', model.SourceName originFile, file)] /\
          Value_of c' fsctx.SavePathCtx = Some (VString (model.SourceName originFile))
    | Some e => out = Returned (Some e) /\ puts tr = [] /\ spawned tr = []
    end.
Proof.
  intros HV Hr.
  destruct (run_Upload fs ctx file w) as [(e0 & w1 & H)|H].
  - rewrite H in Hr. injection Hr as <- <- <-. cbn.
    split; [reflexivity|].
    split; [intros p Hp; inversion Hp|].
    split; [intros c dst r Hp; inversion Hp|].
    split; [intros c Hc; apply list_elem_of_singleton in Hc; discriminate|].
    do 2 eexists. split; [reflexivity|]. cbn. repeat split.
  - read_run H; rewrite Hrun in Hr; injection Hr as <- <- <-;
      destruct (HU _ HV) as [-> ->]; cbn;
      (split; [reflexivity|]);
      (split; [intros p Hp; apply list_elem_of_singleton in Hp; exact Hp|]);
      (split; [intros c dst r Hp; apply list_elem_of_singleton in Hp;
               injection Hp as -> -> ->; split; reflexivity|]);
      (split; [intros; eauto|]);
      do 2 eexists; (split; [reflexivity|]); cbn; eauto.
Qed.

(** Every run of [GetUploadToken]: the settings are read first; a TTL that
    does not parse ends the run there; otherwise a key is drawn, the handler is
    asked for a credential, and the session is stored. *)
Lemma run_GetUploadToken fs ctx path size w :
  let names := ["upload_credential_timeout"; "upload_session_timeout"] in
  exists ttls w1,
    env (AGetSettingByNames names) w = (ttls, w1) /\
    let asked := mkCall (AGetSettingByNames names) ttls in
    match read_ttl ttls "upload_credential_timeout" 3600 "上传凭证有效期设置无效",
          read_ttl ttls "upload_session_timeout" 86400 "上传会话有效期设置无效" with
    | inr e, _ | inl _, inr e =>
        run env (GetUploadToken fs ctx path size) w = (Returned (None, Some e), w1, [asked])
    | inl t1, inl t2 =>
        exists key cred out w' T,
          let token r := mkCall (AToken ctx t1 key) (cred, r) in
          let stored r :=
            mkCall (ACacheSet ("callback_" ++ key)
                      (serializer.mkUploadSession (model.ID (User fs)) path)
                      (int_of_int64 t2)) r in
          run env (GetUploadToken fs ctx path size) w =
            (out, w', asked :: mkCall (ARandStringRunes 32) key :: T) /\
          ((exists e, T = [token (Some e)] /\
              out = Returned (None, Some (AppError serializer.CodeEncryptError
                                            "无法获取上传凭证" e))) \/
           (exists e, T = [token None; stored (Some e)] /\ out = Returned (None, Some e)) \/
           (T = [token None; stored None] /\ out = Returned (Some cred, None)))
    end.
Proof.
  intros names. unfold GetUploadToken, call. cbn. fold names.
  destruct (env (AGetSettingByNames names) w) as [ttls w1] eqn:E0.
  exists ttls, w1. split; [reflexivity|]. cbn zeta.
  destruct (read_ttl ttls "upload_credential_timeout" _ _) as [t1|e]; [|reflexivity].
  destruct (read_ttl ttls "upload_session_timeout" _ _) as [t2|e]; [|reflexivity].
  cbn.
  destruct (env (ARandStringRunes 32) w1) as [key w2] eqn:E1.
  destruct (env (AToken ctx t1 key) w2) as [[cred [e|]] w3] eqn:E2; cbn.
  - exists key, cred. do 3 eexists. split; [reflexivity|]. left. eauto.
  - destruct (env (ACacheSet _ _ _) w3) as [[e|] w4] eqn:E3; cbn;
      exists key, cred; do 3 eexists; (split; [reflexivity|]); eauto 6.
Qed.

Lemma read_ttl_missing (ttls : gmap string string) name default msg :
  ttls !! name = None -> read_ttl ttls name default msg = inl default.
Proof. unfold read_ttl. intros ->. reflexivity. Qed.

Lemma read_ttl_malformed (ttls : gmap string string) name default msg s :
  ttls !! name = Some s -> strconv.numeric s = false ->
  exists ne, read_ttl ttls name default msg =
               inr (AppError serializer.CodeInternalSetting msg (NumErr ne)).
Proof.
  unfold read_ttl. intros -> Hs.
  destruct (ParseInt_not_numeric s Hs) as [ne Hne].
  destruct (strconv.ParseInt s) as [v [e|]]; cbn in Hne; [|discriminate].
  injection Hne as ->. eauto.
Qed.

Lemma read_ttl_error (ttls : gmap string string) name default msg e :
  read_ttl ttls name default msg = inr e ->
  exists ne, e = AppError serializer.CodeInternalSetting msg (NumErr ne).
Proof.
  unfold read_ttl. destruct (ttls !! name) as [s|]; [|intros [=]].
  destruct (strconv.ParseInt s) as [v [ne|]]; intros [= <-]. eauto.
Qed.

Ltac one_of H :=
  repeat (apply elem_of_cons in H as [H|H]); try (inversion H; fail).

(** C10: an anonymous request whose context declares no upload policy gets a
    destination all the same: the two rules of the zero-valued policy are
    expanded with owner 0 (the directory rule on the empty path) and the
    answers are joined; the run returns, it does not panic. *)
Theorem GenerateSavePath_anonymous_no_policy fs ctx file w :
  model.ID (User fs) = 0 ->
  (forall p, Value_of ctx fsctx.UploadPolicyCtx <> Some (VUploadPolicy p)) ->
  exists d w1 n w2,
    env (AGeneratePath model.zeroPolicy 0 "") w = (d, w1) /\
    env (AGenerateFileName model.zeroPolicy 0 (GetFileName file)) w1 = (n, w2) /\
    run env (GenerateSavePath fs ctx file) w =
      (Returned (filepath.Join d n), w2,
       [mkCall (AGeneratePath model.zeroPolicy 0 "") d;
        mkCall (AGenerateFileName model.zeroPolicy 0 (GetFileName file)) n]) /\
    model.zeroPolicy = model.mkPolicy "" false "" "".
Proof.
  intros Hid Hno. unfold GenerateSavePath. rewrite Hid. cbn.
  assert (match Value_of ctx fsctx.UploadPolicyCtx with
          | Some (VUploadPolicy policy) =>
              model.mkPolicy "remote" (serializer.UpAutoRename policy)
                (serializer.SavePath policy) (serializer.FileName policy)
          | _ => model.zeroPolicy
          end = model.zeroPolicy) as ->.
  { destruct (Value_of ctx fsctx.UploadPolicyCtx) as [[]|] eqn:E; try reflexivity.
    exfalso. eapply Hno. reflexivity. }
  destruct (env (AGeneratePath model.zeroPolicy 0 "") w) as [d w1] eqn:E1.
  destruct (env (AGenerateFileName model.zeroPolicy 0 (GetFileName file)) w1)
    as [n w2] eqn:E2.
  exists d, w1, n, w2. cbn. rewrite E2. auto.
Qed.


End Pipeline.

(** ** The watcher, phase by phase *)

Lemma is_closed_app cl extra s :
  is_closed cl s = true -> is_closed (cl ++ extra) s = true.
Proof.
  destruct s as [|i]; cbn; [discriminate|].
  rewrite !bool_decide_eq_true. intros H. apply elem_of_app. auto.
Qed.

Lemma is_open_app cl extra s :
  is_closed (cl ++ extra) s = false -> is_closed cl s = false.
Proof.
  intros H. destruct (is_closed cl s) eqn:E; [|reflexivity].
  rewrite (is_closed_app _ extra _ E) in H. discriminate.
Qed.

Lemma closed_by_cons l sched : closed_by (l :: sched) = (closes l ++ closed_by sched)%list.
Proof. destruct l; reflexivity. Qed.


Lemma scheds_cons l sched :
  scheds (l :: sched) = ((if is_sched l then 1 else 0) + scheds sched)%nat.
Proof. unfold scheds. destruct l; reflexivity. Qed.






Section Watcher.

Context {W : Type} (env : Env W).
Variables (fs : FileSystem) (ctx : Context) (path : string) (file : FileHeader).
Variable rc : Context.
Hypothesis Hrc : request_context ctx = Some rc.

Let registered : bool :=
  match Hooks fs AfterUploadCanceled with Some _ => true | None => false end.

Lemma CancelUpload_awaits :
  CancelUpload fs ctx path file =
  Act (AAwaitDone (Done rc)) (fun _ => watch_poll fs ctx path).
Proof. unfold CancelUpload. rewrite Hrc. reflexivity. Qed.

Lemma fired_snoc cl th (w : W) cs c :
  fired (mkSys cl th w (cs ++ [c])) =
  (length (triggers AfterUploadCanceled cs)
   + length (option_list (as_trigger AfterUploadCanceled c)))%nat.
Proof.
  unfold fired. cbn [calls]. rewrite triggers_app, length_app, triggers_cons.
  cbn. rewrite app_nil_r. reflexivity.
Qed.

#[local] Arguments fired : simpl never.

(** one step of the thread is one step of its phase *)
Lemma sys_step_phase (s : Sys W) l ph :
  stands fs ctx path file ph (thread s) -> fired s = firings ph ->
  let s' := sys_step env s l in
  let ph' := phase_step (Done rc) (Done ctx) registered (closed s) l ph in
  stands fs ctx path file ph' (thread s') /\ fired s' = firings ph' /\
  closed s' = (closed s ++ closes l)%list.
Proof.
  intros Hst Hf. destruct l as [i|].
  { cbn. auto. }
  cbn [closes]. rewrite app_nil_r.
  destruct s as [cl th w cs]. cbn [thread closed] in *.
  unfold fired in Hf. cbn [calls] in Hf.
  destruct ph; cbn [stands phase_step firings] in *.
  - subst th. rewrite CancelUpload_awaits. cbn.
    destruct (is_closed cl (Done rc)); cbn; [|rewrite CancelUpload_awaits; auto].
    rewrite fired_snoc, Hf. auto.
  - subst th. unfold watch_poll, call. cbn.
    rewrite fired_snoc, Hf.
    destruct (is_closed cl (Done ctx)); cbn; auto.
  - subst th. unfold watch_log, Log, call. cbn.
    destruct (env _ w) as [[] w1]. cbn.
    rewrite fired_snoc, Hf. unfold registered.
    destruct (Hooks fs AfterUploadCanceled) eqn:EH; cbn; repeat split; try congruence.
    unfold watch_fire. rewrite EH. reflexivity.
  - destruct Hst as [-> Hreg]. unfold watch_fire, Trigger, call.
    destruct (Hooks fs AfterUploadCanceled) as [hooks|]; [|congruence]. cbn.
    destruct (env _ w) as [[e|] w1]; cbn; rewrite fired_snoc, Hf; cbn; eauto.
  - destruct Hst as [-> | [e ->]]; cbn; [auto|].
    destruct (env _ w) as [[] w1]. cbn. rewrite fired_snoc, Hf. cbn. auto.
  - subst th. cbn. auto.
Qed.



End Watcher.



(** C9: when the context holds no [*gin.Context] under [GinCtx] and nothing
    that is a [context.Context] under [HTTPCtx] (no value at all, or a value of
    another type), [CancelUpload] panics on the unchecked assertion: it makes
    no call, neither run to the end nor as a scheduled thread. *)
Theorem CancelUpload_panics {W} (env : Env W) fs ctx path file w :
  (forall rc, Value_of ctx fsctx.GinCtx <> Some (VGin rc)) ->
  (forall v, Value_of ctx fsctx.HTTPCtx = Some v -> as_context v = None) ->
  run env (CancelUpload fs ctx path file) w = (Panicked InterfaceConversion, w, []) /\
  forall sched,
    thread (sys_run env (watch fs ctx path file w) sched) = Panic InterfaceConversion /\
    calls (sys_run env (watch fs ctx path file w) sched) = [].
Proof.
  intros Hgin Hhttp.
  assert (request_context ctx = None) as Hnone.
  { unfold request_context.
    destruct (Value_of ctx fsctx.GinCtx) as [[]|] eqn:Eg;
      try (exfalso; eapply Hgin; reflexivity);
      destruct (Value_of ctx fsctx.HTTPCtx) as [v|] eqn:Eh; auto. }
  assert (CancelUpload fs ctx path file = Panic InterfaceConversion) as HP
    by (unfold CancelUpload; rewrite Hnone; reflexivity).
  split; [rewrite HP; reflexivity|].
  intros sched. unfold watch. rewrite HP.
  generalize (@nil nat).
  induction sched as [|l sched IH]; intros cl; [auto|].
  destruct l; cbn; apply IH.
Qed.

(** * Concrete runs *)

Lemma triple_eta {A B C} (x : A * B * C) : x = (x.1.1, x.1.2, x.2).
Proof. destruct x as [[? ?] ?]. reflexivity. Qed.



(** a quota hook rejects the upload of [a.txt] *)
Lemma Upload_BeforeUpload_error_witness :
  let r := run (scripted before_fails) (Upload owner_fs plain_ctx req_file) tt in
  let c := WithValue plain_ctx fsctx.FileHeaderCtx (VFileHeader req_file) in
  (c, Some (ErrorString "quota")) ∈ triggers BeforeUpload r.2 /\
  r.1.1 = Returned (Some (ErrorString "quota")) /\
  r.2 = [mkCall (ATrigger c BeforeUpload (Hooks owner_fs BeforeUpload))
           (Some (ErrorString "quota"))] /\
  puts r.2 = [] /\ triggers AfterUpload r.2 = [] /\
  triggers AfterValidateFailed r.2 = [] /\ rule_calls r.2 = [] /\ spawns r.2 = [].
Proof.
  intros r c.
  assert ((c, Some (ErrorString "quota")) ∈ triggers BeforeUpload r.2) as Hin
    by (vm_compute; repeat constructor).
  split; [exact Hin|].
  exact (Upload_BeforeUpload_error (scripted before_fails) owner_fs plain_ctx req_file
           tt r.1.1 r.1.2 r.2 c (ErrorString "quota") (triple_eta r) Hin).
Defined.

(** the storage handler fails to write [a.txt] *)
Lemma Upload_Put_error_witness :
  let r := run (scripted put_fails) (Upload owner_fs plain_ctx req_file) tt in
  let c := WithValue (WithValue plain_ctx fsctx.FileHeaderCtx (VFileHeader req_file))
             fsctx.SavePathCtx (VString "/uploads/1/a.txt") in
  (c, "/uploads/1/a.txt", Some (ErrorString "disk")) ∈ puts r.2 /\
  r.1.1 = Returned (Some (ErrorString "disk")) /\
  last r.2 = Some (mkCall (APut c req_file "/uploads/1/a.txt" (GetSize req_file))
                     (Some (ErrorString "disk"))) /\
  triggers AfterUpload r.2 = [] /\ triggers AfterValidateFailed r.2 = [].
Proof.
  intros r c.
  assert ((c, "/uploads/1/a.txt", Some (ErrorString "disk")) ∈ puts r.2) as Hin
    by (vm_compute; repeat constructor).
  split; [exact Hin|].
  exact (Upload_Put_error (scripted put_fails) owner_fs plain_ctx req_file
           tt r.1.1 r.1.2 r.2 c "/uploads/1/a.txt" (ErrorString "disk")
           (triple_eta r) Hin).
Defined.

(** [AfterUpload] fails with E1 and the compensation with E2 *)
Lemma Upload_compensation_error_witness :
  let r := run (scripted after_fails_twice) (Upload owner_fs plain_ctx req_file) tt in
  let c := WithValue (WithValue plain_ctx fsctx.FileHeaderCtx (VFileHeader req_file))
             fsctx.SavePathCtx (VString "/uploads/1/a.txt") in
  (c, Some (ErrorString "E1")) ∈ triggers AfterUpload r.2 /\
  (c, Some (ErrorString "E2")) ∈ triggers AfterValidateFailed r.2 /\
  r.1.1 = Returned (Some (ErrorString "E1")) /\
  logs r.2 = [(DebugLevel, "AfterValidateFailed 钩子执行失败，%s", [LErr (ErrorString "E2")])] /\
  exists c' dst, puts r.2 = [(c', dst, None)].
Proof.
  intros r c.
  assert ((c, Some (ErrorString "E1")) ∈ triggers AfterUpload r.2) as Hin1
    by (vm_compute; repeat constructor).
  assert ((c, Some (ErrorString "E2")) ∈ triggers AfterValidateFailed r.2) as Hin2
    by (vm_compute; repeat constructor).
  split; [exact Hin1|]. split; [exact Hin2|].
  exact (Upload_compensation_error (scripted after_fails_twice) owner_fs plain_ctx
           req_file tt r.1.1 r.1.2 r.2 c (ErrorString "E1") c (ErrorString "E2")
           (triple_eta r) Hin1 Hin2).
Defined.

(** an update of the object stored at [/uploads/1/old.bin], by an owner whose
    policy would have chosen [/uploads/1/a.txt] *)
Lemma Upload_update_destination_witness :
  let r := run (scripted quiet) (Upload owner_fs update_ctx req_file) tt in
  let origin := model.mkFile "/uploads/1/old.bin" in
  let c1 := WithValue update_ctx fsctx.FileHeaderCtx (VFileHeader req_file) in
  Value_of update_ctx fsctx.FileModelCtx = Some (VFile origin) /\
  triggers BeforeUpload r.2 = [(c1, None)] /\
  rule_calls r.2 = [] /\
  (exists c' res,
     puts r.2 = [(c', "/uploads/1/old.bin", res)] /\
     spawned r.2 = [(c', "/uploads/1/old.bin", req_file)] /\
     Value_of c' fsctx.SavePathCtx = Some (VString "/uploads/1/old.bin")) /\
  (run (scripted quiet) (GenerateSavePath owner_fs update_ctx req_file) tt).1.1
    = Returned "/uploads/1/a.txt".
Proof.
  intros r origin c1.
  assert (triggers BeforeUpload r.2 = [(c1, None)]) as Ht by (vm_compute; reflexivity).
  split; [reflexivity|]. split; [exact Ht|].
  destruct (Upload_update_destination (scripted quiet) owner_fs update_ctx req_file
              origin tt r.1.1 r.1.2 r.2 eq_refl (triple_eta r))
    as (Hrules & _ & _ & _ & c0 & r0 & Ht0 & Hdst).
  split; [exact Hrules|]. split; [|reflexivity].
  rewrite Ht in Ht0. injection Ht0 as <- <-. exact Hdst.
Defined.


(** an anonymous request without a declared policy *)
Lemma GenerateSavePath_anonymous_no_policy_witness :
  model.ID (User anonymous_fs) = 0 /\
  (forall p, Value_of plain_ctx fsctx.UploadPolicyCtx <> Some (VUploadPolicy p)) /\
  exists d n,
    (run (scripted quiet) (GenerateSavePath anonymous_fs plain_ctx req_file) tt).1.1
      = Returned (filepath.Join d n).
Proof.
  assert (forall p, Value_of plain_ctx fsctx.UploadPolicyCtx <> Some (VUploadPolicy p))
    as Hno by (intros p; cbn; discriminate).
  split; [reflexivity|]. split; [exact Hno|].
  destruct (GenerateSavePath_anonymous_no_policy (scripted quiet) anonymous_fs plain_ctx
              req_file tt eq_refl Hno)
    as (d & w1 & n & w2 & _ & _ & Hrun & _).
  exists d, n. rewrite Hrun. reflexivity.
Defined.


(** a context that only holds a string under [HTTPCtx] *)
Lemma CancelUpload_panics_witness :
  (forall rc, Value_of bare_ctx fsctx.GinCtx <> Some (VGin rc)) /\
  (forall v, Value_of bare_ctx fsctx.HTTPCtx = Some v -> as_context v = None) /\
  run (scripted quiet) (CancelUpload owner_fs bare_ctx "/uploads/1/a.txt" req_file) tt
    = (Panicked InterfaceConversion, tt, []).
Proof.
  assert (forall rc, Value_of bare_ctx fsctx.GinCtx <> Some (VGin rc)) as H1
    by (intros rc; cbn; discriminate).
  assert (forall v, Value_of bare_ctx fsctx.HTTPCtx = Some v -> as_context v = None) as H2
    by (intros v [= <-]; reflexivity).
  split; [exact H1|]. split; [exact H2|].
  exact (proj1 (CancelUpload_panics (scripted quiet) owner_fs bare_ctx "/uploads/1/a.txt"
                  req_file tt H1 H2)).
Defined.

(** * Further properties *)

(** ** TTL settings *)

Lemma digits_value_ge s acc : 0 <= acc -> acc <= decimal.digits_value s acc.
Proof.
  revert acc. induction s as [|c rest IH]; intros acc Hacc; cbn; [lia|].
  assert (0 <= default 0 (strconv.digit_of c)) as Hd.
  { destruct (strconv.digit_of c) as [d|] eqn:E; cbn; [|lia].
    apply digit_of_lt in E. lia. }
  specialize (IH (acc * 10 + default 0 (strconv.digit_of c)) ltac:(lia)). lia.
Qed.

(** on digits the loop of [ParseUint] computes the value, unless it leaves
    the range of [uint64] *)
Lemma ParseUint_loop_digits s n :
  strconv.all_digits s = true -> 0 <= n <= strconv.maxUint64 ->
  strconv.ParseUint_loop s n =
    if decimal.digits_value s n <=? strconv.maxUint64
    then (decimal.digits_value s n, None)
    else (strconv.maxUint64, Some strconv.ErrRange).
Proof.
  revert n. induction s as [|c rest IH]; intros n Hs Hn.
  - cbn. destruct (n <=? strconv.maxUint64) eqn:E; [reflexivity|lia].
  - unfold strconv.all_digits in Hs. cbn [list_ascii_of_string forallb] in Hs.
    cbn [strconv.ParseUint_loop decimal.digits_value].
    destruct (strconv.digit_of c) as [d|] eqn:Ed; [|discriminate].
    cbn [andb default from_option id] in *. pose proof (digit_of_lt _ _ Ed) as Hd.
    destruct (10 <=? d) eqn:E10; [lia|].
    pose proof (digits_value_ge rest (n * 10 + d) ltac:(lia)) as Hge.
    change strconv.maxUint64 with 18446744073709551615 in *.
    change (18446744073709551615 / 10 + 1) with 1844674407370955162.
    destruct (1844674407370955162 <=? n) eqn:Ecut.
    { destruct (_ <=? 18446744073709551615) eqn:E; [lia|reflexivity]. }
    cbn zeta. destruct (18446744073709551615 <? n * 10 + d) eqn:Eov.
    { destruct (_ <=? 18446744073709551615) eqn:E; [lia|reflexivity]. }
    apply IH; [exact Hs|lia].
Qed.

(** [ParseInt] accepts exactly the numerals whose value fits an [int64], and
    returns that value *)
Lemma ParseInt_decimal s v :
  strconv.ParseInt s = (v, None) <->
  decimal.value s = Some v /\ decimal.int64 v = true.
Proof.
  destruct (strconv.numeric s) eqn:Hnum.
  2:{ split.
      - intros H. destruct (ParseInt_not_numeric s Hnum) as [ne Hne].
        rewrite H in Hne. discriminate.
      - intros [H _]. destruct s; [discriminate|].
        unfold decimal.value in H. rewrite Hnum in H. discriminate. }
  destruct s as [|c rest]; [discriminate|].
  unfold decimal.value. rewrite Hnum.
  unfold strconv.numeric in Hnum. unfold strconv.ParseInt. cbn zeta in *.
  set (neg := Ascii.eqb c "-"%char) in *.
  set (body := if Ascii.eqb c "+"%char || neg then rest else String c rest) in *.
  apply andb_prop in Hnum as [Hne Hdig].
  assert (strconv.ParseUint body = strconv.ParseUint_loop body 0) as ->
    by (destruct body; [discriminate|reflexivity]).
  rewrite (ParseUint_loop_digits body 0 Hdig) by (unfold strconv.maxUint64; lia).
  pose proof (digits_value_ge body 0 ltac:(lia)) as Hge.
  unfold decimal.int64.
  change strconv.maxUint64 with 18446744073709551615 in *.
  change (2 ^ 63) with 9223372036854775808 in *.
  set (u := decimal.digits_value body 0) in *.
  destruct (u <=? 18446744073709551615) eqn:Eu; destruct neg; cbn.
  all: split;
    [ intros Hp;
      repeat match type of Hp with
             | context [?a <=? ?b] => destruct (Z.leb_spec a b)
             | context [?a <? ?b] => destruct (Z.ltb_spec a b)
             end;
      cbn in Hp; try discriminate; injection Hp as <-;
      split; try reflexivity; apply andb_true_intro;
      split; (apply Z.leb_le || apply Z.ltb_lt); lia
    | intros [Hv Hr]; injection Hv as <-;
      apply andb_prop in Hr as [Hr1 Hr2];
      apply Z.leb_le in Hr1; apply Z.ltb_lt in Hr2;
      repeat match goal with
             | |- context [?a <=? ?b] => destruct (Z.leb_spec a b)
             | |- context [?a <? ?b] => destruct (Z.ltb_spec a b)
             end;
      cbn; try reflexivity; exfalso; lia ].
Qed.

Lemma int_of_int64_id v : decimal.int64 v = true -> int_of_int64 v = v.
Proof.
  unfold decimal.int64, int_of_int64. intros H.
  apply andb_prop in H as [H1 H2]. apply Z.leb_le in H1. apply Z.ltb_lt in H2.
  change (2 ^ 63) with 9223372036854775808 in *.
  change (2 ^ 64) with 18446744073709551616 in *.
  destruct (Z.lt_ge_cases v 0) as [Hneg|Hpos].
  - rewrite <- (Z_mod_plus_full v 1 18446744073709551616).
    rewrite Z.mod_small by lia.
    destruct (Z.ltb_spec (v + 1 * 18446744073709551616) 9223372036854775808); lia.
  - rewrite Z.mod_small by lia.
    destruct (Z.ltb_spec v 9223372036854775808); lia.
Qed.

Lemma ttl_setting_int64 (ttls : gmap string string) name default v :
  decimal.int64 default = true ->
  ttl_setting ttls name default = Some v -> decimal.int64 v = true.
Proof.
  unfold ttl_setting. intros Hd.
  destruct (ttls !! name) as [s|]; [|intros [= <-]; exact Hd].
  destruct (decimal.value s) as [v0|]; [|discriminate].
  destruct (decimal.int64 v0) eqn:E; [|discriminate]. intros [= <-]. exact E.
Qed.

(** [read_ttl] lets a setting through exactly as [ttl_setting] prescribes *)
Lemma read_ttl_setting (ttls : gmap string string) name default msg :
  match ttl_setting ttls name default with
  | Some v => read_ttl ttls name default msg = inl v
  | None => exists ne, read_ttl ttls name default msg =
                         inr (AppError serializer.CodeInternalSetting msg (NumErr ne))
  end.
Proof.
  unfold ttl_setting, read_ttl.
  destruct (ttls !! name) as [s|]; [|reflexivity].
  destruct (strconv.ParseInt s) as [v [ne|]] eqn:EP.
  - assert (~ (exists v', decimal.value s = Some v' /\ decimal.int64 v' = true)) as Hno.
    { intros (v' & Hv). apply ParseInt_decimal in Hv. rewrite EP in Hv. discriminate. }
    destruct (decimal.value s) as [v0|]; [|eauto].
    destruct (decimal.int64 v0) eqn:E; [|eauto]. exfalso. eauto.
  - apply ParseInt_decimal in EP as [-> ->]. reflexivity.
Qed.

Ltac pick H :=
  repeat (apply elem_of_cons in H as [H|H]); try (inversion H; fail).

Section Credentials.

Context {W : Type} (env : Env W).

(** X1: [GetUploadToken] lets a TTL setting through exactly when it is
    missing (the default holds) or an optionally signed decimal numeral that
    fits an [int64] (negative values included): the handler then gets the
    credential TTL and the cache the session TTL.  Any other present value
    ends the run after the settings lookup, with the credential setting
    checked and reported first. *)
Theorem GetUploadToken_ttl_gate fs ctx path size w (ttls : gmap string string)
    w1 out w' tr :
  env (AGetSettingByNames ["upload_credential_timeout"; "upload_session_timeout"]) w
    = (ttls, w1) ->
  run env (GetUploadToken fs ctx path size) w = (out, w', tr) ->
  match ttl_setting ttls "upload_credential_timeout" 3600,
        ttl_setting ttls "upload_session_timeout" 86400 with
  | Some t1, Some t2 =>
      (exists key r, tokens tr = [(t1, key, r)]) /\
      (forall key v ttl r, (key, v, ttl, r) ∈ cache_sets tr -> ttl = t2)
  | None, _ =>
      (exists ne, out = Returned (None, Some (AppError serializer.CodeInternalSetting
                                               "上传凭证有效期设置无效" (NumErr ne)))) /\
      length tr = 1%nat
  | Some _, None =>
      (exists ne, out = Returned (None, Some (AppError serializer.CodeInternalSetting
                                               "上传会话有效期设置无效" (NumErr ne)))) /\
      length tr = 1%nat
  end.
Proof.
  intros E0 Hr.
  destruct (run_GetUploadToken env fs ctx path size w) as (ttls' & w1' & E0' & H).
  cbn zeta in *. rewrite E0 in E0'. injection E0' as <- <-.
  pose proof (read_ttl_setting ttls "upload_credential_timeout" 3600
                "上传凭证有效期设置无效") as H1.
  pose proof (read_ttl_setting ttls "upload_session_timeout" 86400
                "上传会话有效期设置无效") as H2.
  pose proof (ttl_setting_int64 ttls "upload_session_timeout" 86400) as Hrange.
  destruct (ttl_setting ttls "upload_credential_timeout" 3600) as [t1|].
  - rewrite H1 in H.
    destruct (ttl_setting ttls "upload_session_timeout" 86400) as [t2|].
    + rewrite H2 in H. rewrite (int_of_int64_id t2) in H by (apply Hrange; reflexivity).
      destruct H as (key & cred0 & out0 & w0 & T & Hrun & Hc); cbn zeta in Hrun;
        destruct Hc as [(e & -> & ->)|[(e & -> & ->)|(-> & ->)]];
        rewrite Hrun in Hr; injection Hr as <- <- <-; cbn;
        (split; [eauto|]); intros k v ttl r Hin; pick Hin; congruence.
    + destruct H2 as [ne H2]. rewrite H2 in H. rewrite H in Hr.
      injection Hr as <- <- <-. eauto.
  - destruct H1 as [ne H1]. rewrite H1 in H. rewrite H in Hr.
    injection Hr as <- <- <-. eauto.
Qed.

(** X2: when the handler's [Token] call fails, [GetUploadToken] returns no
    credential but a [CodeEncryptError] wrapping the handler's error, and
    [cache.Set] is not called: no session is left behind. *)
Theorem GetUploadToken_Token_error fs ctx path size w out w' tr ttl key cred e :
  run env (GetUploadToken fs ctx path size) w = (out, w', tr) ->
  (ttl, key, (cred, Some e)) ∈ tokens tr ->
  out = Returned (None, Some (AppError serializer.CodeEncryptError "无法获取上传凭证" e)) /\
  cache_sets tr = [].
Proof.
  intros Hr Hin.
  destruct (run_GetUploadToken env fs ctx path size w) as (ttls & w1 & E0 & H).
  cbn zeta in H.
  destruct (read_ttl ttls "upload_credential_timeout" _ _) as [t1|e1].
  1: destruct (read_ttl ttls "upload_session_timeout" _ _) as [t2|e2].
  1: destruct H as (key0 & cred0 & out0 & w0 & T & Hrun & Hc); cbn zeta in Hrun;
     destruct Hc as [(e0 & -> & ->)|[(e0 & -> & ->)|(-> & ->)]].
  all: rewrite ?Hrun, ?H in Hr; injection Hr as <- <- <-; cbn in Hin; pick Hin;
    try discriminate.
  injection Hin as -> -> -> ->. split; reflexivity.
Qed.

(** X3: whenever [GetUploadToken] stores a session, the cache key is
    "callback_" followed by the 32-rune string drawn in this call, the same
    string that was passed to the handler's [Token], which had succeeded; the
    session holds the owner's ID and the path given.  A run draws at most one
    key, asks for at most one credential, stores at most one session, and
    never triggers a hook or calls [Put]. *)
Theorem GetUploadToken_callback_key fs ctx path size w out w' tr :
  run env (GetUploadToken fs ctx path size) w = (out, w', tr) ->
  (forall k v ttl r, (k, v, ttl, r) ∈ cache_sets tr ->
     exists key t cred,
       rands tr = [(32, key)] /\ tokens tr = [(t, key, (cred, None))] /\
       k = "callback_" ++ key /\
       v = serializer.mkUploadSession (model.ID (User fs)) path) /\
  (length (rands tr) <= 1)%nat /\ (length (tokens tr) <= 1)%nat /\
  (length (cache_sets tr) <= 1)%nat /\
  (forall st, triggers st tr = []) /\ puts tr = [].
Proof.
  intros Hr.
  destruct (run_GetUploadToken env fs ctx path size w) as (ttls & w1 & E0 & H).
  cbn zeta in H.
  destruct (read_ttl ttls "upload_credential_timeout" _ _) as [t1|e1].
  1: destruct (read_ttl ttls "upload_session_timeout" _ _) as [t2|e2].
  1: destruct H as (key0 & cred0 & out0 & w0 & T & Hrun & Hc); cbn zeta in Hrun;
     destruct Hc as [(e0 & -> & ->)|[(e0 & -> & ->)|(-> & ->)]].
  all: rewrite ?Hrun, ?H in Hr; injection Hr as <- <- <-.
  all: split; [intros k v ttl r Hin; cbn in Hin; pick Hin;
               injection Hin as -> -> -> ->; cbn; eauto 8|].
  all: cbn; repeat split; lia.
Qed.

End Credentials.

(** ** Issuing a credential *)

Lemma read_ttl_rejects (ttls : gmap string string) name default msg e :
  read_ttl ttls name default msg = inr e -> ttl_setting ttls name default = None.
Proof.
  intros H. pose proof (read_ttl_setting ttls name default msg) as Hs.
  destruct (ttl_setting ttls name default); [congruence|reflexivity].
Qed.

Lemma read_ttl_accepted (ttls : gmap string string) name default msg v :
  accepted_ttl ttls name default v -> read_ttl ttls name default msg = inl v.
Proof.
  unfold accepted_ttl, read_ttl. destruct (ttls !! name) as [s|].
  - intros ->. reflexivity.
  - intros ->. reflexivity.
Qed.

Lemma accepted_ttl_int64 (ttls : gmap string string) name default v :
  decimal.int64 default = true ->
  accepted_ttl ttls name default v -> decimal.int64 v = true.
Proof.
  unfold accepted_ttl. intros Hd. destruct (ttls !! name) as [s|].
  - intros H. apply ParseInt_decimal in H. tauto.
  - intros ->. exact Hd.
Qed.

Section Issuing.

Context {W : Type} (env : Env W).

(** C1: a credential is returned exactly when the handler's [Token] call
    succeeded and the session {owner, virtual path} was then stored under the
    key drawn for that call.  With both TTL settings acceptable the handler
    is asked once; a successful [Token] is followed by one [cache.Set] of that
    session under "callback_" and the key; a stored session always comes with
    the credential of that [Token] call, and a failing [cache.Set] with its
    error and no credential.  The result is a credential without error or an
    error without credential. *)
Theorem GetUploadToken_atomic fs ctx path size w (ttls : gmap string string)
    w1 out w' tr :
  env (AGetSettingByNames ["upload_credential_timeout"; "upload_session_timeout"]) w
    = (ttls, w1) ->
  run env (GetUploadToken fs ctx path size) w = (out, w', tr) ->
  (forall cred,
     (exists err, out = Returned (Some cred, err)) <->
     (exists ttl key ttl',
        (ttl, key, (cred, None)) ∈ tokens tr /\
        ("callback_" ++ key, serializer.mkUploadSession (model.ID (User fs)) path,
         ttl', None) ∈ cache_sets tr)) /\
  (forall key v ttl e,
     (key, v, ttl, Some e) ∈ cache_sets tr -> out = Returned (None, Some e)) /\
  (ttl_setting ttls "upload_credential_timeout" 3600 <> None ->
   ttl_setting ttls "upload_session_timeout" 86400 <> None ->
   exists ttl key r, tokens tr = [(ttl, key, r)]) /\
  (forall ttl key cred, (ttl, key, (cred, None)) ∈ tokens tr ->
     exists ttl' r,
       cache_sets tr =
         [("callback_" ++ key, serializer.mkUploadSession (model.ID (User fs)) path,
           ttl', r)]) /\
  (forall k v ttl, (k, v, ttl, None) ∈ cache_sets tr ->
     exists cred t key,
       out = Returned (Some cred, None) /\ tokens tr = [(t, key, (cred, None))] /\
       k = "callback_" ++ key /\
       v = serializer.mkUploadSession (model.ID (User fs)) path) /\
  ((exists cred, out = Returned (Some cred, None)) \/
   (exists e, out = Returned (None, Some e))).
Proof.
  intros E0 Hr.
  destruct (run_GetUploadToken env fs ctx path size w) as (ttls' & w1' & E0' & H).
  cbn zeta in H. rewrite E0 in E0'. injection E0' as <- <-.
  pose proof (read_ttl_rejects ttls "upload_credential_timeout" 3600
                "上传凭证有效期设置无效") as R1.
  pose proof (read_ttl_rejects ttls "upload_session_timeout" 86400
                "上传会话有效期设置无效") as R2.
  destruct (read_ttl ttls "upload_credential_timeout" _ _) as [t1|e1].
  1: destruct (read_ttl ttls "upload_session_timeout" _ _) as [t2|e2].
  1: destruct H as (key & cred0 & out0 & w0 & T & Hrun & Hc); cbn zeta in Hrun;
     destruct Hc as [(e & -> & ->)|[(e & -> & ->)|(-> & ->)]].
  all: rewrite ?Hrun, ?H in Hr; injection Hr as <- <- <-;
    unfold tokens, cache_sets; cbn [omap list_omap as_token as_cache_set].
  all: split;
    [intros cred; split;
       [intros (err & [=]); subst;
        exists t1, key, (int_of_int64 t2); split; apply list_elem_of_here
       |intros (ttl & k & ttl' & Hin1 & Hin2); pick Hin1; pick Hin2;
        try discriminate; injection Hin1 as -> -> ->; eauto]|].
  all: split;
    [intros k v ttl e' Hin; pick Hin; try discriminate;
     injection Hin as -> -> -> ->; reflexivity|].
  all: split;
    [intros Hn1 Hn2; try (exfalso; apply Hn1; apply (R1 _ eq_refl));
     try (exfalso; apply Hn2; apply (R2 _ eq_refl)); eauto|].
  all: split;
    [intros ttl k c Hin; pick Hin; try discriminate;
     injection Hin as -> -> ->; eauto|].
  all: split;
    [intros k v ttl Hin; pick Hin; try discriminate;
     injection Hin as -> -> ->; eauto 8|].
  all: eauto.
Qed.

(** C6: a TTL setting that is missing leaves the default in force (3600 for
    the credential, 86400 for the session); "3600" and "86400" parse to those
    integers; whatever a present setting parses to is the TTL the handler's
    [Token] gets and, after a successful [Token], the TTL [cache.Set] gets; a
    setting that is present but not a decimal numeral, such as "abc", makes
    [GetUploadToken] return a [CodeInternalSetting] error with no credential,
    after the settings call alone: neither the handler nor the cache is
    reached. *)
Theorem GetUploadToken_ttl_settings fs ctx path size w (ttls : gmap string string)
    w1 out w' tr :
  env (AGetSettingByNames ["upload_credential_timeout"; "upload_session_timeout"]) w
    = (ttls, w1) ->
  run env (GetUploadToken fs ctx path size) w = (out, w', tr) ->
  (ttls !! "upload_credential_timeout" = None ->
     forall ttl key r, (ttl, key, r) ∈ tokens tr -> ttl = 3600) /\
  (ttls !! "upload_session_timeout" = None ->
     forall key v ttl r, (key, v, ttl, r) ∈ cache_sets tr -> ttl = 86400) /\
  (ttls !! "upload_credential_timeout" = None ->
   ttls !! "upload_session_timeout" = None ->
     exists key r, tokens tr = [(3600, key, r)]) /\
  strconv.ParseInt "3600" = (3600, None) /\
  strconv.ParseInt "86400" = (86400, None) /\
  strconv.numeric "abc" = false /\
  (forall name s,
     name = "upload_credential_timeout" \/ name = "upload_session_timeout" ->
     ttls !! name = Some s -> strconv.numeric s = false ->
     (exists msg ne,
        out = Returned (None, Some (AppError serializer.CodeInternalSetting msg
                                      (NumErr ne)))) /\
     tr = [mkCall (AGetSettingByNames
                     ["upload_credential_timeout"; "upload_session_timeout"]) ttls] /\
     tokens tr = [] /\ cache_sets tr = []) /\
  (forall t1 t2,
     accepted_ttl ttls "upload_credential_timeout" 3600 t1 ->
     accepted_ttl ttls "upload_session_timeout" 86400 t2 ->
     exists key cred r,
       tokens tr = [(t1, key, (cred, r))] /\
       (r = None ->
        exists res,
          cache_sets tr =
            [("callback_" ++ key,
              serializer.mkUploadSession (model.ID (User fs)) path, t2, res)])).
Proof.
  intros E0 Hr.
  destruct (run_GetUploadToken env fs ctx path size w) as (ttls' & w1' & E0' & H).
  cbn zeta in *. rewrite E0 in E0'. injection E0' as <- <-.
  repeat match goal with |- _ /\ _ => split end; try reflexivity.
  - intros Hm. rewrite (read_ttl_missing _ _ _ _ Hm) in H.
    destruct (read_ttl ttls "upload_session_timeout" _ _) as [t2|e2].
    1: destruct H as (key & cred0 & out0 & w0 & T & Hrun & Hc); cbn zeta in Hrun;
       destruct Hc as [(e & -> & ->)|[(e & -> & ->)|(-> & ->)]].
    all: rewrite ?Hrun, ?H in Hr; injection Hr as <- <- <-;
      intros ttl k r Hin; cbn in Hin; pick Hin; congruence.
  - intros Hm. rewrite (read_ttl_missing _ "upload_session_timeout" _ _ Hm) in H.
    destruct (read_ttl ttls "upload_credential_timeout" _ _) as [t1|e1].
    1: destruct H as (key & cred0 & out0 & w0 & T & Hrun & Hc); cbn zeta in Hrun;
       destruct Hc as [(e & -> & ->)|[(e & -> & ->)|(-> & ->)]].
    all: rewrite ?Hrun, ?H in Hr; injection Hr as <- <- <-;
      intros k v ttl r Hin; unfold cache_sets in Hin;
      cbn [omap list_omap as_cache_set] in Hin; pick Hin;
      injection Hin as -> -> -> ->; reflexivity.
  - intros Hm1 Hm2.
    rewrite (read_ttl_missing _ _ _ _ Hm1), (read_ttl_missing _ _ _ _ Hm2) in H.
    destruct H as (key & cred0 & out0 & w0 & T & Hrun & Hc); cbn zeta in Hrun;
      destruct Hc as [(e & -> & ->)|[(e & -> & ->)|(-> & ->)]];
      rewrite Hrun in Hr; injection Hr as <- <- <-; cbn; eauto.
  - intros name s Hname Hs Hbad.
    assert (exists msg ne,
              run env (GetUploadToken fs ctx path size) w =
                (Returned (None, Some (AppError serializer.CodeInternalSetting msg
                                         (NumErr ne))), w1,
                 [mkCall (AGetSettingByNames
                            ["upload_credential_timeout"; "upload_session_timeout"])
                    ttls])) as (msg & ne & Hrun).
    { destruct Hname as [-> | ->].
      - destruct (read_ttl_malformed _ _ 3600 "上传凭证有效期设置无效" _ Hs Hbad) as [ne Hne].
        rewrite Hne in H. eauto.
      - destruct (read_ttl_malformed _ _ 86400 "上传会话有效期设置无效" _ Hs Hbad) as [ne Hne].
        rewrite Hne in H.
        destruct (read_ttl ttls "upload_credential_timeout" _ _) as [t1|e1] eqn:E1; [eauto|].
        destruct (read_ttl_error _ _ _ _ _ E1) as [ne1 ->]. eauto. }
    rewrite Hrun in Hr. injection Hr as <- <- <-. cbn. eauto 6.
  - intros t1 t2 A1 A2.
    rewrite (read_ttl_accepted _ _ _ _ _ A1), (read_ttl_accepted _ _ _ _ _ A2) in H.
    rewrite (int_of_int64_id t2) in H
      by (eapply accepted_ttl_int64; [|exact A2]; reflexivity).
    destruct H as (key & cred0 & out0 & w0 & T & Hrun & Hc); cbn zeta in Hrun;
      destruct Hc as [(e & -> & ->)|[(e & -> & ->)|(-> & ->)]];
      rewrite Hrun in Hr; injection Hr as <- <- <-; cbn;
      do 3 eexists; (split; [reflexivity|]); intros [=]; eauto.
Qed.

End Issuing.

(** ** The upload pipeline, call by call *)

Section Calls.

Context {W : Type} (env : Env W).

Ltac reply :=
  match goal with
  | |- context [env ?a ?w] =>
      let x := fresh "x" in let w' := fresh "w" in let E := fresh "E" in
      destruct (env a w) as [x w'] eqn:E; try destruct x; cbn
  end.

(** the destination step, with its calls spelled out *)
Lemma run_destination_calls fs ctx ctx' file w :
  (exists o, Value_of ctx fsctx.FileModelCtx = Some (VFile o) /\
     run env (match Value_of ctx fsctx.FileModelCtx with
              | Some (VFile originFile) => mret (model.SourceName originFile)
              | _ => GenerateSavePath fs ctx' file
              end) w = (Returned (model.SourceName o), w, [])) \/
  ((forall o, Value_of ctx fsctx.FileModelCtx <> Some (VFile o)) /\
   exists p uid origin d n w2,
     run env (match Value_of ctx fsctx.FileModelCtx with
              | Some (VFile originFile) => mret (model.SourceName originFile)
              | _ => GenerateSavePath fs ctx' file
              end) w =
       (Returned (filepath.Join d n), w2,
        [mkCall (AGeneratePath p uid origin) d;
         mkCall (AGenerateFileName p uid (GetFileName file)) n])).
Proof.
  destruct (run_GenerateSavePath env fs ctx' file w)
    as (p & uid & origin & d & w1 & n & w2 & E1 & E2 & EG).
  destruct (Value_of ctx fsctx.FileModelCtx) as [v|] eqn:EV.
  2:{ right. split; [congruence|]. exists p, uid, origin, d, n, w2. exact EG. }
  destruct v; try (right; split; [congruence|];
                   exists p, uid, origin, d, n, w2; exact EG).
  left. exists f. split; reflexivity.
Qed.

(** every run of [Upload], as a list of calls *)
Lemma run_Upload_calls fs ctx file w out w' tr :
  run env (Upload fs ctx file) w = (out, w', tr) ->
  let ctx1 := WithValue ctx fsctx.FileHeaderCtx (VFileHeader file) in
  let before r := mkCall (ATrigger ctx1 BeforeUpload (Hooks fs BeforeUpload)) r in
  (exists e, out = Returned (Some e) /\ tr = [before (Some e)]) \/
  (exists savePath R T,
     let ctx2 := WithValue ctx1 fsctx.SavePathCtx (VString savePath) in
     let put r := mkCall (APut ctx2 file savePath (GetSize file)) r in
     let after r := mkCall (ATrigger ctx2 AfterUpload (Hooks fs AfterUpload)) r in
     let failed r :=
       mkCall (ATrigger ctx2 AfterValidateFailed (Hooks fs AfterValidateFailed)) r in
     tr = (before None :: R ++ mkCall (AGo ctx2 savePath file) tt :: T)%list /\
     ((exists o, Value_of ctx fsctx.FileModelCtx = Some (VFile o) /\
         savePath = model.SourceName o /\ R = []) \/
      ((forall o, Value_of ctx fsctx.FileModelCtx <> Some (VFile o)) /\
       exists p uid origin d n,
         R = [mkCall (AGeneratePath p uid origin) d;
              mkCall (AGenerateFileName p uid (GetFileName file)) n] /\
         savePath = filepath.Join d n)) /\
     ((exists e, out = Returned (Some e) /\ T = [put (Some e)]) \/
      (out = Returned None /\
       T = [put None; after None;
            mkCall (ALog InfoLevel "新文件PUT:%s , 大小:%d, 上传者:%s"
                      [LStr (GetFileName file); LNum (GetSize file);
                       LStr (model.Nick (User fs))]) tt]) \/
      (exists e1, out = Returned (Some e1) /\
         T = [put None; after (Some e1); failed None]) \/
      (exists e1 e2, out = Returned (Some e1) /\
         T = [put None; after (Some e1); failed (Some e2);
              mkCall (ALog DebugLevel "AfterValidateFailed 钩子执行失败，%s"
                        [LErr e2]) tt]))).
Proof.
  intros Hr ctx1 before. subst before. revert Hr.
  unfold Upload, Trigger, call. cbn. fold ctx1.
  destruct (env _ w) as [[e0|] w1] eqn:E0; cbn.
  - intros [= <- <- <-]. left. eauto.
  - intros Hr. right. revert Hr. unfold mbind at 1, Prog_bind at 1. rewrite run_bind.
    destruct (run_destination_calls fs ctx ctx1 file w1)
      as [(o & Ho & ->)|(Hno & p & uid & origin & d & n & w3 & ->)].
    + cbn. repeat reply; intros [= <- <- <-];
        exists (model.SourceName o), []; eexists;
        (split; [reflexivity|]); (split; [left; eauto|]); cbn; eauto 8.
    + cbn. repeat reply; intros [= <- <- <-];
        exists (filepath.Join d n); eexists [_; _]; eexists;
        (split; [reflexivity|]); (split; [right; split; [exact Hno|eauto 8]|]);
        eauto 8.
Qed.

Ltac shapes Hr :=
  let HR := fresh "HR" in let HT := fresh "HT" in
  destruct (run_Upload_calls _ _ _ _ _ _ _ Hr)
    as [(? & -> & ->)|(? & ? & ? & -> & HR & HT)]; cbn zeta in *;
  [ | destruct HR as [(? & ? & -> & ->)|(? & ? & ? & ? & ? & ? & -> & ->)];
      destruct HT as [(? & -> & ->)|[(-> & ->)|[(? & -> & ->)|(? & ? & -> & ->)]]] ].

(** X4: [Upload] returns nil exactly when the [AfterUpload] hooks answered
    nil; in that case [BeforeUpload] and [Put] had succeeded, the compensation
    hook was not triggered, and the one log line is the info record of file
    name, size and owner's nick. *)
Theorem Upload_returns_nil fs ctx file w out w' tr :
  run env (Upload fs ctx file) w = (out, w', tr) ->
  (out = Returned None <-> exists c, (c, None) ∈ triggers AfterUpload tr) /\
  (out = Returned None ->
   exists c1 c2 dst,
     triggers BeforeUpload tr = [(c1, None)] /\ puts tr = [(c2, dst, None)] /\
     triggers AfterUpload tr = [(c2, None)] /\ triggers AfterValidateFailed tr = [] /\
     logs tr = [(InfoLevel, "新文件PUT:%s , 大小:%d, 上传者:%s",
                 [LStr (GetFileName file); LNum (GetSize file);
                  LStr (model.Nick (User fs))])]).
Proof.
  intros Hr. shapes Hr; cbn.
  all: split; [split; [intros [=]; eauto using list_elem_of_here
                      |intros (c & Hc); pick Hc; discriminate || reflexivity]
              |intros [=]; eauto 8].
Qed.

(** X5: an error returned by [Upload] is the answer of its [BeforeUpload]
    trigger, of [Put], or of its [AfterUpload] trigger, and each such answer
    is returned: [Upload] adds no error of its own and never returns the
    error of the compensation hook in place of them. *)
Theorem Upload_error_origin fs ctx file w out w' tr e :
  run env (Upload fs ctx file) w = (out, w', tr) ->
  out = Returned (Some e) <->
  ((exists c, (c, Some e) ∈ triggers BeforeUpload tr) \/
   (exists c dst, (c, dst, Some e) ∈ puts tr) \/
   (exists c, (c, Some e) ∈ triggers AfterUpload tr)).
Proof.
  intros Hr. shapes Hr; cbn.
  all: split;
    [intros [= <-]; eauto 6 using list_elem_of_here
    |intros [(c & Hc)|[(c & dst & Hc)|(c & Hc)]]; pick Hc; congruence].
Qed.

(** X6: in one run [Upload] triggers each hook stage at most once, calls
    [Put] at most once (no retry) and starts at most one watcher; it never
    triggers [AfterUploadCanceled] itself and never asks for a credential or
    touches the cache; the compensation hook is triggered exactly when
    [AfterUpload] answered an error. *)
Theorem Upload_at_most_once fs ctx file w out w' tr :
  run env (Upload fs ctx file) w = (out, w', tr) ->
  (forall st, (length (triggers st tr) <= 1)%nat) /\
  (length (puts tr) <= 1)%nat /\ (length (spawned tr) <= 1)%nat /\
  triggers AfterUploadCanceled tr = [] /\ tokens tr = [] /\ cache_sets tr = [] /\
  (triggers AfterValidateFailed tr <> [] <->
   exists c e, (c, Some e) ∈ triggers AfterUpload tr).
Proof.
  intros Hr. shapes Hr; cbn.
  all: repeat match goal with |- _ /\ _ => split end;
    try reflexivity; try lia; try (intros st; destruct st; cbn; lia).
  all: split; [intros Hn; try congruence; eauto using list_elem_of_here
              |intros (c & e' & Hc); pick Hc; try discriminate; congruence].
Qed.

Ltac cut_at H pre :=
  repeat (destruct pre as [|? pre];
          [cbn in H; injection H as <- <-
          |cbn in H; injection H as <- H]);
  try (destruct pre; discriminate).

(** X7: the calls of [Upload] come in a fixed order.  [Put] is called only
    after [BeforeUpload] answered nil and after the watcher was started with
    the same context and destination; naming rules are expanded only between
    [BeforeUpload] and the start of the watcher; [AfterUpload] is triggered
    only after [Put] answered nil, and [AfterValidateFailed] only after
    [AfterUpload] answered an error. *)
Theorem Upload_order fs ctx file w out w' tr pre c post :
  run env (Upload fs ctx file) w = (out, w', tr) ->
  tr = (pre ++ c :: post)%list ->
  (forall c' dst r, as_put c = Some (c', dst, r) ->
     (exists c1, triggers BeforeUpload pre = [(c1, None)]) /\
     spawned pre = [(c', dst, file)]) /\
  (is_rule_call c = true ->
     (exists c1, triggers BeforeUpload pre = [(c1, None)]) /\
     spawned pre = [] /\ puts pre = []) /\
  (forall c' r, as_trigger AfterUpload c = Some (c', r) ->
     exists dst, puts pre = [(c', dst, None)]) /\
  (forall c' r, as_trigger AfterValidateFailed c = Some (c', r) ->
     exists e, triggers AfterUpload pre = [(c', Some e)]).
Proof.
  intros Hr Htr. shapes Hr; cbn in Htr; cut_at Htr pre.
  all: cbn; repeat split; intros; try discriminate;
    simplify_eq; eauto.
Qed.

(** X8: for a request that is not an update (no [model.File] value under
    [FileModelCtx], whatever else is stored there), once [BeforeUpload] has
    passed the directory rule and the file rule are each expanded once, with
    the request's file name, and the join of the two answers is the
    destination given to the watcher and to [Put] and bound under
    [SavePathCtx]. *)
Theorem Upload_new_destination fs ctx file w out w' tr c :
  (forall o, Value_of ctx fsctx.FileModelCtx <> Some (VFile o)) ->
  run env (Upload fs ctx file) w = (out, w', tr) ->
  (c, None) ∈ triggers BeforeUpload tr ->
  exists p uid origin d n c' r,
    rule_calls tr = [mkCall (AGeneratePath p uid origin) d;
                     mkCall (AGenerateFileName p uid (GetFileName file)) n] /\
    puts tr = [(c', filepath.Join d n, r)] /\
    spawned tr = [(c', filepath.Join d n, file)] /\
    Value_of c' fsctx.SavePathCtx = Some (VString (filepath.Join d n)).
Proof.
  intros Hno Hr Hin. shapes Hr; cbn in Hin; pick Hin; try discriminate;
    try (exfalso; eapply Hno; eassumption);
    cbn; do 7 eexists; repeat split.
Qed.

Lemma eqb_FileHeaderCtx k : k <> fsctx.FileHeaderCtx -> fsctx.eqb fsctx.FileHeaderCtx k = false.
Proof. destruct k; cbn; congruence. Qed.

Lemma eqb_SavePathCtx k : k <> fsctx.SavePathCtx -> fsctx.eqb fsctx.SavePathCtx k = false.
Proof. destruct k; cbn; congruence. Qed.

(** X9: every context [Upload] hands to a hook, to [Put] or to the watcher
    binds [FileHeaderCtx] to the request, has the [Done] channel of the
    caller's context, and agrees with the caller's context on every key other
    than [FileHeaderCtx] and [SavePathCtx]; under [SavePathCtx] it holds the
    caller's value for [BeforeUpload] and the destination for all later
    calls. *)
Theorem Upload_contexts fs ctx file w out w' tr c x :
  run env (Upload fs ctx file) w = (out, w', tr) ->
  c ∈ tr -> call_ctx c = Some x ->
  Value_of x fsctx.FileHeaderCtx = Some (VFileHeader file) /\
  Done x = Done ctx /\
  (forall k, k <> fsctx.FileHeaderCtx -> k <> fsctx.SavePathCtx ->
     Value_of x k = Value_of ctx k) /\
  match as_trigger BeforeUpload c with
  | Some _ => Value_of x fsctx.SavePathCtx = Value_of ctx fsctx.SavePathCtx
  | None => exists dst, spawns tr = [dst] /\
                        Value_of x fsctx.SavePathCtx = Some (VString dst)
  end.
Proof.
  intros Hr Hin Hx. shapes Hr; cbn in Hin; pick Hin; subst c; cbn in Hx;
    try discriminate; injection Hx as <-.
  all: (split; [reflexivity|]); (split; [reflexivity|]);
    (split; [intros k Hk1 Hk2; cbn [Value_of];
             rewrite ?(eqb_SavePathCtx k Hk2), (eqb_FileHeaderCtx k Hk1); reflexivity|]);
    cbn; eauto.
Qed.

(** X10: the watcher [Upload] starts is given the request itself, the
    destination that [Put] gets, and a context with the caller's [Done]
    channel and the caller's gin or HTTP request context.  So when the
    caller's context carries neither, an upload that passes [BeforeUpload]
    starts a watcher that panics. *)
Theorem Upload_watcher fs ctx file w out w' tr c path f :
  run env (Upload fs ctx file) w = (out, w', tr) ->
  (c, path, f) ∈ spawned tr ->
  f = file /\ Done c = Done ctx /\ request_context c = request_context ctx /\
  Value_of c fsctx.SavePathCtx = Some (VString path) /\
  (exists r, puts tr = [(c, path, r)]) /\
  (request_context ctx = None ->
   forall (env' : Env W) w0,
     run env' (CancelUpload fs c path f) w0 = (Panicked InterfaceConversion, w0, [])).
Proof.
  intros Hr Hin. shapes Hr; cbn in Hin; pick Hin; injection Hin as -> -> ->.
  all: repeat split; cbn; eauto;
    intros Hnone env' w0; unfold CancelUpload;
    match goal with
    | |- context [request_context ?c] =>
        change (request_context c) with (request_context ctx)
    end; rewrite Hnone; reflexivity.
Qed.

End Calls.

(** ** The destination resolver *)

Lemma Clean_not_empty p : filepath.Clean p <> "".
Proof.
  unfold filepath.Clean. destruct p as [|c rest]; [discriminate|]. cbn zeta.
  match goal with |- (if String.eqb ?r "" then _ else _) <> _ =>
    destruct (String.eqb_spec r ""); [discriminate|assumption] end.
Qed.

Lemma Join_empty a b : filepath.Join a b = "" <-> a = "" /\ b = "".
Proof.
  unfold filepath.Join.
  destruct (String.eqb_spec a ""); cbn.
  - destruct (String.eqb_spec b ""); cbn.
    + tauto.
    + split; [intros H; exfalso; exact (Clean_not_empty _ H)|tauto].
  - split; [intros H; exfalso; exact (Clean_not_empty _ H)|tauto].
Qed.

Section Resolver.

Context {W : Type} (env : Env W).

(** X11: for an authenticated owner (ID not 0) the destination is the join of
    the owner's directory rule, expanded with the owner's ID and the request's
    virtual path, and the owner's file rule, expanded with the ID and the file
    name; the context, and any upload policy declared in it, plays no part. *)
Theorem GenerateSavePath_authenticated fs ctx file w :
  model.ID (User fs) <> 0 ->
  (exists d w1 n w2,
     env (AGeneratePath (model.UserPolicy (User fs)) (model.ID (User fs))
            (GetVirtualPath file)) w = (d, w1) /\
     env (AGenerateFileName (model.UserPolicy (User fs)) (model.ID (User fs))
            (GetFileName file)) w1 = (n, w2) /\
     run env (GenerateSavePath fs ctx file) w =
       (Returned (filepath.Join d n), w2,
        [mkCall (AGeneratePath (model.UserPolicy (User fs)) (model.ID (User fs))
                   (GetVirtualPath file)) d;
         mkCall (AGenerateFileName (model.UserPolicy (User fs)) (model.ID (User fs))
                   (GetFileName file)) n])) /\
  (forall ctx', run env (GenerateSavePath fs ctx' file) w =
                run env (GenerateSavePath fs ctx file) w).
Proof.
  intros Hid. apply Z.eqb_neq in Hid.
  unfold GenerateSavePath. rewrite Hid. cbn.
  destruct (env (AGeneratePath _ _ _) w) as [d w1] eqn:E1.
  destruct (env (AGenerateFileName _ _ _) w1) as [n w2] eqn:E2.
  split; [|reflexivity].
  exists d, w1, n, w2. cbn. rewrite E2. auto.
Qed.

(** X12: [GenerateSavePath] always returns, after exactly two rule
    expansions, and the destination it returns is the empty string only when
    both expansions are empty; a destination that is not empty is never the
    result of joining nothing. *)
Theorem GenerateSavePath_empty_destination fs ctx file w out w' tr :
  run env (GenerateSavePath fs ctx file) w = (out, w', tr) ->
  exists dst d n,
    out = Returned dst /\ rule_answers tr = [d; n] /\ length tr = 2%nat /\
    dst = filepath.Join d n /\ (dst = "" <-> d = "" /\ n = "").
Proof.
  intros Hr.
  destruct (run_GenerateSavePath env fs ctx file w)
    as (p & uid & origin & d & w1 & n & w2 & E1 & E2 & EG).
  rewrite EG in Hr. injection Hr as <- <- <-.
  exists (filepath.Join d n), d, n.
  repeat (split; [reflexivity|]). apply Join_empty.
Qed.

End Resolver.

(** ** More on the watcher *)

Section Watching.

Context {W : Type} (env : Env W).
Variables (fs : FileSystem) (ctx : Context) (path : string) (file : FileHeader).
Variable rc : Context.
Hypothesis Hrc : request_context ctx = Some rc.

Let registered : bool :=
  match Hooks fs AfterUploadCanceled with Some _ => true | None => false end.

Lemma sys_run_waiting sched cl (w : W) :
  is_closed (cl ++ closed_by sched) (Done rc) = false ->
  sys_run env (mkSys cl (CancelUpload fs ctx path file) w []) sched =
  mkSys (cl ++ closed_by sched) (CancelUpload fs ctx path file) w [].
Proof.
  revert cl. induction sched as [|l sched IH]; intros cl Hopen.
  - cbn. rewrite app_nil_r. reflexivity.
  - rewrite closed_by_cons, app_assoc in Hopen.
    pose proof (is_open_app _ _ _ Hopen) as H1.
    pose proof (is_open_app _ _ _ H1) as H0.
    rewrite closed_by_cons, app_assoc. rewrite <- (IH _ Hopen).
    unfold sys_run. cbn [fold_left]. f_equal.
    destruct l as [i|]; cbn [sys_step closes thread closed world calls].
    + reflexivity.
    + rewrite app_nil_r, (CancelUpload_awaits fs ctx path file rc Hrc), H0. reflexivity.
Qed.

(** one step keeps the calls among those a watcher may make *)
Lemma sys_step_calls (s : Sys W) l ph :
  stands fs ctx path file ph (thread s) ->
  Forall (watcher_call fs ctx path) (calls s) ->
  Forall (watcher_call fs ctx path) (calls (sys_step env s l)).
Proof.
  intros Hst Hc. destruct l as [i|]; [exact Hc|].
  destruct s as [cl th w cs]. cbn [thread calls] in *.
  destruct ph; cbn [stands] in Hst.
  - subst th. rewrite (CancelUpload_awaits fs ctx path file rc Hrc). cbn.
    destruct (is_closed cl (Done rc)); cbn; [|exact Hc].
    apply Forall_app. split; [exact Hc|]. repeat constructor.
  - subst th. unfold watch_poll, call. cbn.
    apply Forall_app. split; [exact Hc|]. repeat constructor.
  - subst th. unfold watch_log, Log, call. cbn.
    destruct (env _ w) as [[] w1]. cbn.
    apply Forall_app. split; [exact Hc|]. repeat constructor.
  - destruct Hst as [-> Hreg]. unfold watch_fire, Trigger, call.
    destruct (Hooks fs AfterUploadCanceled) as [hooks|] eqn:EH; [|congruence]. cbn.
    destruct (env _ w) as [r w1]. cbn.
    apply Forall_app. split; [exact Hc|].
    constructor; [|constructor]. cbn. rewrite EH. auto.
  - destruct Hst as [-> | [e ->]]; cbn; [exact Hc|].
    destruct (env _ w) as [[] w1]. cbn.
    apply Forall_app. split; [exact Hc|]. repeat constructor.
  - subst th. exact Hc.
Qed.

Lemma sys_run_calls sched (s : Sys W) ph :
  stands fs ctx path file ph (thread s) -> fired s = firings ph ->
  Forall (watcher_call fs ctx path) (calls s) ->
  Forall (watcher_call fs ctx path) (calls (sys_run env s sched)).
Proof.
  revert s ph. induction sched as [|l sched IH]; intros s ph Hst Hf Hc; [exact Hc|].
  destruct (sys_step_phase env fs ctx path file rc Hrc s l ph Hst Hf) as (Hst' & Hf' & _).
  cbn zeta in *. eapply (IH (sys_step env s l)); eauto using sys_step_calls.
Qed.

End Watching.

Lemma watcher_call_quiet fs ctx path (cs : list Call) :
  Forall (watcher_call fs ctx path) cs ->
  puts cs = [] /\ spawned cs = [] /\ tokens cs = [] /\ cache_sets cs = [] /\
  rule_calls cs = [] /\
  forall st, st <> AfterUploadCanceled -> triggers st cs = [].
Proof.
  induction 1 as [|c cs Hc _ IH]; [repeat split|].
  destruct IH as (I1 & I2 & I3 & I4 & I5 & I6).
  destruct c as [a r]. unfold watcher_call in Hc. cbn [call_action] in Hc.
  destruct a; try contradiction;
    try (repeat split; try assumption; intros st Hst; cbn; apply I6, Hst).
  destruct Hc as (-> & -> & ->).
  repeat split; try assumption. intros st Hst.
  unfold triggers. cbn. destruct st; try congruence; apply I6; congruence.
Qed.

(** X13: as long as the [Done] channel of the request context is not closed
    (for good, when that channel is nil, as for a [*gin.Context] stored under
    [HTTPCtx]) the watcher stays at its first receive however often it is
    scheduled: it makes no call at all, and no cleanup happens. *)
Theorem CancelUpload_waits {W} (env : Env W) fs ctx path file rc w sched :
  request_context ctx = Some rc ->
  is_closed (closed_by sched) (Done rc) = false ->
  sys_run env (watch fs ctx path file w) sched =
  mkSys (closed_by sched) (CancelUpload fs ctx path file) w [].
Proof.
  intros Hrc Hopen.
  apply (sys_run_waiting env fs ctx path file rc Hrc sched [] w). exact Hopen.
Qed.

(** X14: whatever the schedule, the only calls the watcher makes are receives
    and polls on [Done] channels, debug log lines, and triggers of the
    [AfterUploadCanceled] hooks of its file system, with the save path it was
    given bound under [SavePathCtx]; it never calls [Put], never expands a
    naming rule, never asks for a credential or touches the cache, and starts
    no further watcher. *)
Theorem CancelUpload_calls {W} (env : Env W) fs ctx path file rc w sched :
  request_context ctx = Some rc ->
  let cs := calls (sys_run env (watch fs ctx path file w) sched) in
  Forall (watcher_call fs ctx path) cs /\
  puts cs = [] /\ spawned cs = [] /\ tokens cs = [] /\ cache_sets cs = [] /\
  rule_calls cs = [] /\
  (forall st, st <> AfterUploadCanceled -> triggers st cs = []) /\
  (forall c r, (c, r) ∈ triggers AfterUploadCanceled cs ->
     Value_of c fsctx.SavePathCtx = Some (VString path) /\ Done c = Done ctx).
Proof.
  intros Hrc cs.
  assert (Forall (watcher_call fs ctx path) cs) as HF.
  { apply (sys_run_calls env fs ctx path file rc Hrc sched _ AtAwait);
      [reflexivity|reflexivity|constructor]. }
  split; [exact HF|].
  destruct (watcher_call_quiet _ _ _ _ HF) as (H1 & H2 & H3 & H4 & H5 & H6).
  repeat (split; [assumption|]).
  intros c r Hin. clear -HF Hin. induction HF as [|c0 cs0 Hc _ IH]; [inversion Hin|].
  destruct c0 as [a r0]. unfold watcher_call in Hc. cbn [call_action] in Hc.
  rewrite triggers_cons in Hin.
  destruct a; try contradiction; cbn in Hin; try (apply IH, Hin).
  destruct Hc as (-> & -> & ->). cbn in Hin.
  apply elem_of_cons in Hin as [[= -> ->]|Hin]; [split; reflexivity|apply IH, Hin].
Qed.

(** X15: run to its end, [CancelUpload] returns normally whatever the hooks
    answer.  When the [AfterUploadCanceled] hooks report an error, the error
    goes into a debug log line, which is the last call, right after the
    cancellation notice; when they succeed only the notice is logged. *)
Theorem CancelUpload_hook_error {W} (env : Env W) fs ctx path file rc w out w' tr :
  request_context ctx = Some rc ->
  run env (CancelUpload fs ctx path file) w = (out, w', tr) ->
  out = Returned tt /\
  (length (triggers AfterUploadCanceled tr) <= 1)%nat /\
  (forall c e, (c, Some e) ∈ triggers AfterUploadCanceled tr ->
     logs tr = [(DebugLevel, "客户端取消上传", []);
                (DebugLevel, "执行 AfterUploadCanceled 钩子出错，%s", [LErr e])] /\
     last tr = Some (mkCall (ALog DebugLevel "执行 AfterUploadCanceled 钩子出错，%s"
                               [LErr e]) tt)) /\
  (forall c, (c, None) ∈ triggers AfterUploadCanceled tr ->
     logs tr = [(DebugLevel, "客户端取消上传", [])]).
Proof.
  intros Hrc. unfold CancelUpload. rewrite Hrc. unfold Log, Trigger, call. cbn.
  destruct (env (AAwaitDone _) w) as [[] w1].
  destruct (env (APollDone _) w1) as [[|] w2]; cbn.
  2: destruct (env (ALog _ _ _) w2) as [[] w3]; cbn;
     destruct (Hooks fs AfterUploadCanceled) as [hooks|]; cbn.
  2: destruct (env (ATrigger _ _ _) w3) as [[e0|] w4]; cbn.
  2: destruct (env (ALog _ _ _) w4) as [[] w5]; cbn.
  all: intros [= <- <- <-]; cbn; repeat split; try lia; intros;
    repeat match goal with
           | H : _ ∈ [] |- _ => inversion H
           | H : _ ∈ [_] |- _ => apply list_elem_of_singleton in H
           end; simplify_eq; reflexivity.
Qed.

Section Finishing.

Context {W : Type} (env : Env W).
Variables (fs : FileSystem) (ctx : Context) (path : string) (file : FileHeader).
Variable rc : Context.
Hypothesis Hrc : request_context ctx = Some rc.

(** a scheduled step moves the watcher to a later point, unless it is waiting
    on the open request channel or has ended; every call it makes is one call
    less to go *)
Lemma sys_step_point (s : Sys W) pt :
  thread s = program_at fs ctx path file pt ->
  exists pt',
    thread (sys_step env s Sched) = program_at fs ctx path file pt' /\
    closed (sys_step env s Sched) = closed s /\
    (length (calls (sys_step env s Sched)) + calls_left pt'
     <= length (calls s) + calls_left pt)%nat /\
    (is_closed (closed s) (Done rc) = true ->
     (calls_left pt' <= calls_left pt - 1)%nat).
Proof.
  intros Hth. destruct s as [cl th w cs]. cbn [thread closed calls] in *. subst th.
  destruct pt; cbn [program_at].
  - rewrite (CancelUpload_awaits fs ctx path file rc Hrc). cbn.
    destruct (is_closed cl (Done rc)) eqn:E; cbn.
    + exists PPoll. rewrite length_app. repeat split; cbn; lia.
    + exists PAwait. cbn. rewrite (CancelUpload_awaits fs ctx path file rc Hrc).
      repeat split; try lia; discriminate.
  - unfold watch_poll, call. cbn. rewrite length_app.
    destruct (is_closed cl (Done ctx)); [exists PEnd|exists PLog];
      repeat split; cbn; lia.
  - unfold watch_log, Log, call. cbn. destruct (env _ w) as [[] w1]. cbn.
    rewrite length_app. exists PFire. repeat split; cbn; lia.
  - unfold watch_fire, Trigger, call.
    destruct (Hooks fs AfterUploadCanceled) as [hooks|]; cbn.
    + destruct (env _ w) as [[e|] w1]; cbn; rewrite length_app;
        [exists (PReport e)|exists PEnd]; repeat split; cbn; lia.
    + exists PEnd. repeat split; cbn; lia.
  - unfold watch_report, Log, call. cbn. destruct (env _ w) as [[] w1]. cbn.
    rewrite length_app. exists PEnd. repeat split; cbn; lia.
  - cbn. exists PEnd. repeat split; cbn; lia.
Qed.

Lemma sys_run_point sched (s : Sys W) pt :
  thread s = program_at fs ctx path file pt ->
  exists pt',
    thread (sys_run env s sched) = program_at fs ctx path file pt' /\
    closed (sys_run env s sched) = (closed s ++ closed_by sched)%list /\
    (length (calls (sys_run env s sched)) + calls_left pt'
     <= length (calls s) + calls_left pt)%nat /\
    (is_closed (closed s) (Done rc) = true ->
     (calls_left pt' <= calls_left pt - scheds sched)%nat).
Proof.
  revert s pt. induction sched as [|l sched IH]; intros s pt Hth.
  - exists pt. cbn. rewrite app_nil_r. repeat split; auto.
    intros _. unfold scheds. cbn. lia.
  - destruct l as [i|].
    + destruct (IH (sys_step env s (Close i)) pt Hth) as (pt' & H1 & H2 & H3 & H4).
      exists pt'. unfold sys_run in *. cbn [fold_left].
      split; [exact H1|]. split; [|split].
      * rewrite H2. cbn. rewrite <- app_assoc. reflexivity.
      * exact H3.
      * intros Hc. rewrite scheds_cons. cbn. apply H4. cbn. apply is_closed_app, Hc.
    + destruct (sys_step_point s pt Hth) as (pt1 & Hth1 & Hcl1 & Hlen & Hlt).
      destruct (IH (sys_step env s Sched) pt1 Hth1) as (pt' & H1 & H2 & H3 & H4).
      exists pt'. unfold sys_run in *. cbn [fold_left].
      split; [exact H1|]. split; [|split].
      * rewrite H2, Hcl1. reflexivity.
      * lia.
      * intros Hc. rewrite scheds_cons. cbn.
        rewrite Hcl1 in H4. specialize (H4 Hc). specialize (Hlt Hc). lia.
Qed.

Lemma sys_run_ended sched (s : Sys W) :
  thread s = Ret tt -> calls (sys_run env s sched) = calls s.
Proof.
  revert s. induction sched as [|l sched IH]; intros s Hth; [reflexivity|].
  unfold sys_run in *. cbn [fold_left]. rewrite IH.
  - destruct l; cbn; [reflexivity|]. rewrite Hth. reflexivity.
  - destruct l; cbn; [exact Hth|]. rewrite Hth. exact Hth.
Qed.

End Finishing.

Lemma calls_left_end pt : calls_left pt = 0%nat -> pt = PEnd.
Proof. destruct pt; cbn; intros; (reflexivity || lia). Qed.

Lemma sys_run_app {W} (env : Env W) (s : Sys W) s0 s1 :
  sys_run env s (s0 ++ s1) = sys_run env (sys_run env s s0) s1.
Proof. unfold sys_run. apply fold_left_app. Qed.

(** X16: once the request context has ended, five scheduled steps are enough
    for the watcher to end, whatever the operation context, the hooks and the
    logger do; over its whole life it makes at most five calls, and none after
    its end. *)
Theorem CancelUpload_finishes {W} (env : Env W) fs ctx path file rc w s0 s1 s2 :
  request_context ctx = Some rc ->
  is_closed (closed_by s0) (Done rc) = true ->
  (5 <= scheds s1)%nat ->
  let s := sys_run env (watch fs ctx path file w) (s0 ++ s1) in
  thread s = Ret tt /\
  (length (calls s) <= 5)%nat /\
  calls (sys_run env (watch fs ctx path file w) (s0 ++ s1 ++ s2)) = calls s.
Proof.
  intros Hrc Hreq Hn s. subst s.
  destruct (sys_run_point env fs ctx path file rc Hrc s0 (watch fs ctx path file w) PAwait)
    as (pt0 & Hth0 & Hcl0 & Hlen0 & _); [reflexivity|].
  destruct (sys_run_point env fs ctx path file rc Hrc s1 _ pt0 Hth0)
    as (pt1 & Hth1 & Hcl1 & Hlen1 & Hleft).
  rewrite Hcl0 in Hleft. cbn in Hleft, Hlen0. specialize (Hleft Hreq).
  assert (pt1 = PEnd) as -> by (apply calls_left_end; lia).
  rewrite app_assoc, (sys_run_app env _ (s0 ++ s1) s2), !sys_run_app.
  split; [exact Hth1|]. split; [lia|].
  apply sys_run_ended. exact Hth1.
Qed.

(** ** Cleaned paths *)

Lemma append_assoc (a b c : string) : ((a ++ b) ++ c = a ++ (b ++ c))%string.
Proof.
  induction a as [|x a IH]; [reflexivity|].
  change (String x ((a ++ b) ++ c) = String x (a ++ (b ++ c)))%string.
  rewrite IH. reflexivity.
Qed.

Lemma append_empty_r (a : string) : (a ++ "" = a)%string.
Proof.
  induction a as [|x a IH]; [reflexivity|].
  change (String x (a ++ "") = String x a)%string. rewrite IH. reflexivity.
Qed.

Lemma no_slash_app a b : no_slash (a ++ b) = no_slash a && no_slash b.
Proof.
  unfold no_slash. induction a as [|x a IH]; [reflexivity|].
  change (String x a ++ b)%string with (String x (a ++ b))%string.
  cbn [list_ascii_of_string forallb].
  rewrite IH. apply andb_assoc.
Qed.

Lemma split_aux_no_slash s cur :
  no_slash cur = true ->
  Forall (fun c => no_slash c = true) (filepath.split_aux s cur).
Proof.
  revert cur. induction s as [|x s IH]; intros cur Hcur; cbn.
  - constructor; [exact Hcur|constructor].
  - destruct (Ascii.eqb x "/"%char) eqn:E.
    + constructor; [exact Hcur|]. apply IH. reflexivity.
    + apply IH. rewrite no_slash_app, Hcur. unfold no_slash. cbn. rewrite E. reflexivity.
Qed.

Lemma regular_tests c :
  regular c = true ->
  String.eqb c "" = false /\ String.eqb c "." = false /\ String.eqb c ".." = false /\
  no_slash c = true.
Proof.
  unfold regular. intros H.
  apply andb_prop in H as [H H4]. apply andb_prop in H as [H H3].
  apply andb_prop in H as [H1 H2].
  apply negb_true_iff in H1, H2, H3. auto.
Qed.

Lemma clean_components_tidy rooted cs out :
  Forall (fun c => no_slash c = true) cs -> tidy rooted out ->
  tidy rooted (filepath.clean_components rooted cs out).
Proof.
  intros Hcs. revert out. induction Hcs as [|c cs Hc _ IH]; intros out Hout; [exact Hout|].
  cbn [filepath.clean_components].
  destruct (String.eqb c "") eqn:E1; [apply IH, Hout|].
  destruct (String.eqb c ".") eqn:E2; [apply IH, Hout|]. cbn [orb].
  destruct (String.eqb c "..") eqn:E3.
  - apply String.eqb_eq in E3. subst c.
    destruct Hout as (regs & dots & -> & Hregs & Hdots & Hroot).
    destruct regs as [|r regs]; cbn [app].
    + destruct dots as [|t dots].
      * destruct rooted; apply IH.
        -- exists [], []. auto.
        -- exists [], [".."]. repeat split; auto. discriminate.
      * inversion Hdots; subst. cbn. apply IH.
        exists [], (".." :: ".." :: dots). repeat split; auto.
        intros Hr. specialize (Hroot Hr). discriminate.
    + inversion Hregs; subst.
      destruct (regular_tests r ltac:(assumption)) as (_ & _ & Hr & _).
      rewrite Hr. apply IH. exists regs, dots. auto.
  - apply IH. destruct Hout as (regs & dots & -> & Hregs & Hdots & Hroot).
    exists (c :: regs), dots. repeat split; auto.
    constructor; [|exact Hregs]. unfold regular. rewrite E1, E2, E3, Hc. reflexivity.
Qed.

Lemma split_aux_app c rest cur :
  no_slash c = true ->
  filepath.split_aux (c ++ rest) cur = filepath.split_aux rest (cur ++ c).
Proof.
  revert cur. induction c as [|x c IH]; intros cur Hc.
  - change ("" ++ rest)%string with rest. rewrite append_empty_r. reflexivity.
  - unfold no_slash in Hc. cbn [list_ascii_of_string forallb] in Hc.
    apply andb_prop in Hc as [Hx Hc]. apply negb_true_iff in Hx.
    change (String x c ++ rest)%string with (String x (c ++ rest))%string.
    cbn [filepath.split_aux]. rewrite Hx.
    rewrite IH by exact Hc. rewrite append_assoc. reflexivity.
Qed.

Lemma split_aux_join L cur :
  Forall (fun c => no_slash c = true) L -> L <> [] ->
  filepath.split_aux (filepath.join_sep L) cur = (cur ++ hd "" L)%string :: tl L.
Proof.
  intros HL. revert cur. induction HL as [|c L Hc HL IH]; intros cur Hne; [congruence|].
  destruct L as [|c2 L].
  - cbn. rewrite <- (append_empty_r c) at 1. rewrite split_aux_app by exact Hc.
    reflexivity.
  - change (filepath.join_sep (c :: c2 :: L))
      with (c ++ String "/"%char (filepath.join_sep (c2 :: L)))%string.
    rewrite split_aux_app by exact Hc.
    change (filepath.split_aux (String "/"%char (filepath.join_sep (c2 :: L))) (cur ++ c))
      with ((cur ++ c)%string :: filepath.split_aux (filepath.join_sep (c2 :: L)) "").
    rewrite IH by discriminate. reflexivity.
Qed.

Lemma clean_components_regular rooted R acc :
  Forall (fun c => regular c = true) R ->
  filepath.clean_components rooted R acc = (rev R ++ acc)%list.
Proof.
  intros HR. revert acc. induction HR as [|c R Hc _ IH]; intros acc; [reflexivity|].
  destruct (regular_tests c Hc) as (E1 & E2 & E3 & _).
  cbn [filepath.clean_components]. rewrite E1, E2, E3. cbn [orb].
  rewrite IH. cbn [rev]. rewrite <- app_assoc. reflexivity.
Qed.

Lemma clean_components_dots D rest acc :
  Forall (fun c => c = "..") D -> Forall (fun c => c = "..") acc ->
  filepath.clean_components false (D ++ rest) acc =
  filepath.clean_components false rest (rev D ++ acc)%list.
Proof.
  intros HD. revert acc. induction HD as [|c D Hc _ IH]; intros acc Hacc; [reflexivity|].
  subst c. cbn [app filepath.clean_components]. cbn [String.eqb Ascii.eqb orb].
  change (String.eqb ".." "") with false. change (String.eqb ".." ".") with false.
  change (String.eqb ".." "..") with true. cbn [orb].
  assert (filepath.clean_components false (D ++ rest) (".." :: acc) =
          filepath.clean_components false rest (rev (".." :: D) ++ acc)%list) as Hgo.
  { rewrite IH by (constructor; [reflexivity|exact Hacc]).
    cbn [rev]. rewrite <- app_assoc. reflexivity. }
  destruct acc as [|top acc]; [exact Hgo|].
  inversion Hacc; subst. change (String.eqb ".." "..") with true. exact Hgo.
Qed.

(** cleaning the components of a cleaned path changes nothing *)
Lemma clean_components_fixed rooted out :
  tidy rooted out ->
  filepath.clean_components rooted (rev out) [] = out.
Proof.
  intros (regs & dots & -> & Hregs & Hdots & Hroot).
  rewrite rev_app_distr.
  destruct rooted.
  - rewrite (Hroot eq_refl). cbn [rev app]. rewrite app_nil_r.
    rewrite clean_components_regular by (apply Forall_rev, Hregs).
    rewrite rev_involutive, app_nil_r. reflexivity.
  - rewrite clean_components_dots by (try apply Forall_rev; auto).
    rewrite clean_components_regular by (apply Forall_rev, Hregs).
    rewrite !rev_involutive, app_nil_r. reflexivity.
Qed.

Lemma tidy_components rooted out :
  tidy rooted out ->
  Forall (fun c => no_slash c = true /\ exists a c', c = String a c') out.
Proof.
  intros (regs & dots & -> & Hregs & Hdots & _). apply Forall_app. split.
  - eapply Forall_impl; [exact Hregs|]. intros c Hc. cbn beta in *.
    destruct (regular_tests c Hc) as (E1 & _ & _ & E4). split; [exact E4|].
    destruct c; [discriminate|eauto].
  - eapply Forall_impl; [exact Hdots|]. intros c ->. split; [reflexivity|eauto].
Qed.

Lemma join_sep_head a c' L :
  exists body', filepath.join_sep (String a c' :: L) = String a body'.
Proof. destruct L; cbn; eauto. Qed.

Lemma Clean_cons c s :
  filepath.Clean (String c s) =
    let rooted := Ascii.eqb c "/"%char in
    let body :=
      filepath.join_sep (rev (filepath.clean_components rooted
                                (filepath.split (String c s)) [])) in
    let res := if rooted then ("/" ++ body)%string else body in
    if String.eqb res "" then "." else res.
Proof. reflexivity. Qed.

(** a path put together from a tidy component list is its own cleaning *)
Lemma Clean_canonical rooted out :
  tidy rooted out -> out <> [] ->
  let body := filepath.join_sep (rev out) in
  let res := if rooted then String "/"%char body else body in
  filepath.Clean res = res.
Proof.
  intros Ht Hne body res.
  pose proof (tidy_components rooted out Ht) as Hcomp.
  apply Forall_rev in Hcomp.
  assert (Forall (fun c => no_slash c = true) (rev out)) as Hns
    by (eapply Forall_impl; [exact Hcomp|]; intros c [H _]; exact H).
  assert (rev out <> []) as Hne'.
  { intros E. apply (f_equal (@rev string)) in E. rewrite rev_involutive in E.
    cbn in E. congruence. }
  destruct (rev out) as [|h t] eqn:EL; [congruence|].
  inversion Hcomp as [|? ? [Hh (a & h' & ->)] _]; subst.
  destruct (join_sep_head a h' t) as [body' Hbody].
  assert (Ascii.eqb a "/"%char = false) as Ha.
  { unfold no_slash in Hh. cbn in Hh. apply andb_prop in Hh as [Hh _].
    apply negb_true_iff in Hh. exact Hh. }
  assert (filepath.split body = String a h' :: t) as Hsplit.
  { unfold filepath.split, body. rewrite split_aux_join by (auto; discriminate).
    reflexivity. }
  pose proof (clean_components_fixed rooted out Ht) as Hfix. rewrite EL in Hfix.
  destruct rooted; subst res.
  - rewrite Clean_cons. cbn zeta.
    change (Ascii.eqb "/" "/") with true.
    change (filepath.split (String "/"%char body))
      with ("" :: filepath.split body). rewrite Hsplit.
    change (filepath.clean_components true ("" :: String a h' :: t) [])
      with (filepath.clean_components true (String a h' :: t) []).
    rewrite Hfix, EL. reflexivity.
  - assert (forall s, s = body -> filepath.Clean s = s) as Hgen; [|apply Hgen; reflexivity].
    intros s Hs. destruct s as [|c s']; [unfold body in Hs; congruence|].
    rewrite Clean_cons. cbn zeta.
    assert (c = a) as -> by (unfold body in Hs; congruence).
    rewrite Ha, Hs, Hsplit, Hfix, EL. fold body. rewrite <- Hs. reflexivity.
Qed.

(** [Clean] is idempotent *)
Lemma Clean_idempotent p : filepath.Clean (filepath.Clean p) = filepath.Clean p.
Proof.
  destruct p as [|c0 rest]; [reflexivity|].
  rewrite (Clean_cons c0 rest). cbn zeta.
  set (rooted := Ascii.eqb c0 "/"%char).
  set (out := filepath.clean_components rooted (filepath.split (String c0 rest)) []).
  assert (tidy rooted out) as Ht.
  { apply clean_components_tidy.
    - apply split_aux_no_slash. reflexivity.
    - exists [], []. repeat split; auto. }
  destruct out as [|x out'] eqn:Eout.
  - destruct rooted; reflexivity.
  - pose proof (Clean_canonical rooted (x :: out') Ht ltac:(discriminate)) as Hc.
    cbn zeta in Hc.
    pose proof (tidy_components rooted (x :: out') Ht) as Hcomp.
    apply Forall_rev in Hcomp.
    destruct (rev (x :: out')) as [|h t] eqn:EL.
    { apply (f_equal (@rev string)) in EL. rewrite rev_involutive in EL. discriminate. }
    inversion Hcomp as [|? ? [_ (a & h' & ->)] _]; subst.
    destruct (join_sep_head a h' t) as [body' Hbody].
    destruct rooted.
    + change (String.eqb ("/" ++ filepath.join_sep (String a h' :: t)) "") with false.
      cbn iota. exact Hc.
    + rewrite Hbody in *. change (String.eqb (String a body') "") with false.
      cbn iota. exact Hc.
Qed.

Lemma Join_clean a b :
  filepath.Join a b = "" \/ filepath.Clean (filepath.Join a b) = filepath.Join a b.
Proof.
  unfold filepath.Join.
  destruct (negb (String.eqb a "")); [right; apply Clean_idempotent|].
  destruct (negb (String.eqb b "")); [right; apply Clean_idempotent|].
  left. reflexivity.
Qed.

(** X17: the destination [GenerateSavePath] returns is either empty or a
    cleaned path that [filepath.Clean] leaves as it is: whatever the naming
    rules answer (doubled separators, [.] and [..] components, a trailing
    separator), the destination is in canonical form. *)
Theorem GenerateSavePath_clean_destination {W} (env : Env W) fs ctx file w out w' tr :
  run env (GenerateSavePath fs ctx file) w = (out, w', tr) ->
  exists dst, out = Returned dst /\ (dst = "" \/ filepath.Clean dst = dst).
Proof.
  intros Hr.
  destruct (run_GenerateSavePath env fs ctx file w)
    as (p & uid & origin & d & w1 & n & w2 & E1 & E2 & EG).
  rewrite EG in Hr. injection Hr as <- <- <-.
  exists (filepath.Join d n). split; [reflexivity|]. apply Join_clean.
Qed.

(** * More concrete runs *)

(** a credential TTL of "-5" reaches the handler as -5 *)
Lemma GetUploadToken_ttl_gate_witness :
  let r := run (scripted negative_ttl) (GetUploadToken owner_fs plain_ctx "/" 5) tt in
  ttl_setting (settings negative_ttl) "upload_credential_timeout" 3600 = Some (-5) /\
  ttl_setting (settings negative_ttl) "upload_session_timeout" 86400 = Some 86400 /\
  exists key res, tokens r.2 = [(-5, key, res)].
Proof.
  intros r.
  assert (ttl_setting (settings negative_ttl) "upload_credential_timeout" 3600
          = Some (-5)) as E1 by (vm_compute; reflexivity).
  assert (ttl_setting (settings negative_ttl) "upload_session_timeout" 86400
          = Some 86400) as E2 by (vm_compute; reflexivity).
  split; [exact E1|]. split; [exact E2|].
  pose proof (GetUploadToken_ttl_gate (scripted negative_ttl) owner_fs plain_ctx "/" 5 tt
                (settings negative_ttl) tt r.1.1 r.1.2 r.2 eq_refl (triple_eta r)) as H.
  rewrite E1, E2 in H. exact (proj1 H).
Defined.

(** the handler cannot sign a credential *)
Lemma GetUploadToken_Token_error_witness :
  let r := run (scripted token_fails) (GetUploadToken owner_fs plain_ctx "/" 5) tt in
  (3600, "k", (serializer.mkUploadCredential "", Some (ErrorString "signer")))
    ∈ tokens r.2 /\
  r.1.1 = Returned (None, Some (AppError serializer.CodeEncryptError "无法获取上传凭证"
                                  (ErrorString "signer"))) /\
  cache_sets r.2 = [].
Proof.
  intros r.
  assert ((3600, "k", (serializer.mkUploadCredential "", Some (ErrorString "signer")))
            ∈ tokens r.2) as Hin by (vm_compute; repeat constructor).
  split; [exact Hin|].
  exact (GetUploadToken_Token_error (scripted token_fails) owner_fs plain_ctx "/" 5 tt
           r.1.1 r.1.2 r.2 _ _ _ _ (triple_eta r) Hin).
Defined.

(** a credential is issued under the key "k" *)
Lemma GetUploadToken_callback_key_witness :
  let r := run (scripted quiet) (GetUploadToken owner_fs plain_ctx "/" 5) tt in
  ("callback_k", serializer.mkUploadSession 1 "/", 86400, None) ∈ cache_sets r.2 /\
  exists key t cred,
    rands r.2 = [(32, key)] /\ tokens r.2 = [(t, key, (cred, None))] /\
    "callback_k" = "callback_" ++ key /\
    serializer.mkUploadSession 1 "/" =
      serializer.mkUploadSession (model.ID (User owner_fs)) "/".
Proof.
  intros r.
  assert (("callback_k", serializer.mkUploadSession 1 "/", 86400, None)
            ∈ cache_sets r.2) as Hin by (vm_compute; repeat constructor).
  split; [exact Hin|].
  exact (proj1 (GetUploadToken_callback_key (scripted quiet) owner_fs plain_ctx "/" 5 tt
                  r.1.1 r.1.2 r.2 (triple_eta r)) _ _ _ _ Hin).
Defined.

(** an upload on which everything succeeds *)
Lemma Upload_returns_nil_witness :
  let r := run (scripted quiet) (Upload owner_fs plain_ctx req_file) tt in
  r.1.1 = Returned None /\
  exists c1 c2 dst,
    triggers BeforeUpload r.2 = [(c1, None)] /\ puts r.2 = [(c2, dst, None)] /\
    triggers AfterUpload r.2 = [(c2, None)] /\ triggers AfterValidateFailed r.2 = [] /\
    logs r.2 = [(InfoLevel, "新文件PUT:%s , 大小:%d, 上传者:%s",
                 [LStr "a.txt"; LNum 5; LStr "admin"])].
Proof.
  intros r.
  assert (r.1.1 = Returned None) as Hout by (vm_compute; reflexivity).
  split; [exact Hout|].
  exact (proj2 (Upload_returns_nil (scripted quiet) owner_fs plain_ctx req_file tt
                  r.1.1 r.1.2 r.2 (triple_eta r)) Hout).
Defined.

(** the error of a failing [Put] is the error returned *)
Lemma Upload_error_origin_witness :
  let r := run (scripted put_fails) (Upload owner_fs plain_ctx req_file) tt in
  r.1.1 = Returned (Some (ErrorString "disk")) /\
  ((exists c, (c, Some (ErrorString "disk")) ∈ triggers BeforeUpload r.2) \/
   (exists c dst, (c, dst, Some (ErrorString "disk")) ∈ puts r.2) \/
   (exists c, (c, Some (ErrorString "disk")) ∈ triggers AfterUpload r.2)).
Proof.
  intros r.
  assert (r.1.1 = Returned (Some (ErrorString "disk"))) as Hout
    by (vm_compute; reflexivity).
  split; [exact Hout|].
  exact (proj1 (Upload_error_origin (scripted put_fails) owner_fs plain_ctx req_file tt
                  r.1.1 r.1.2 r.2 (ErrorString "disk") (triple_eta r)) Hout).
Defined.

(** a run on which the compensation hook is triggered *)
Lemma Upload_at_most_once_witness :
  let r := run (scripted after_fails_twice) (Upload owner_fs plain_ctx req_file) tt in
  (length (puts r.2) <= 1)%nat /\ triggers AfterUploadCanceled r.2 = [] /\
  (triggers AfterValidateFailed r.2 <> [] <->
   exists c e, (c, Some e) ∈ triggers AfterUpload r.2).
Proof.
  intros r.
  destruct (Upload_at_most_once (scripted after_fails_twice) owner_fs plain_ctx req_file
              tt r.1.1 r.1.2 r.2 (triple_eta r)) as (_ & H2 & _ & H4 & _ & _ & H7).
  auto.
Defined.

(** the calls before the [Put] of a successful upload *)
Lemma Upload_order_witness :
  let r := run (scripted quiet) (Upload owner_fs plain_ctx req_file) tt in
  let c2 := WithValue (WithValue plain_ctx fsctx.FileHeaderCtx (VFileHeader req_file))
              fsctx.SavePathCtx (VString "/uploads/1/a.txt") in
  let put := mkCall (APut c2 req_file "/uploads/1/a.txt" 5) None in
  r.2 = (take 4 r.2 ++ put :: drop 5 r.2)%list /\
  (exists c1, triggers BeforeUpload (take 4 r.2) = [(c1, None)]) /\
  spawned (take 4 r.2) = [(c2, "/uploads/1/a.txt", req_file)].
Proof.
  intros r c2 put.
  assert (r.2 = (take 4 r.2 ++ put :: drop 5 r.2)%list) as Hcut
    by (vm_compute; reflexivity).
  split; [exact Hcut|].
  exact (proj1 (Upload_order (scripted quiet) owner_fs plain_ctx req_file tt
                  r.1.1 r.1.2 r.2 (take 4 r.2) put (drop 5 r.2) (triple_eta r) Hcut)
           c2 "/uploads/1/a.txt" None eq_refl).
Defined.

(** a new upload of [a.txt] by owner 1 *)
Lemma Upload_new_destination_witness :
  let r := run (scripted quiet) (Upload owner_fs plain_ctx req_file) tt in
  let c1 := WithValue plain_ctx fsctx.FileHeaderCtx (VFileHeader req_file) in
  (forall o, Value_of plain_ctx fsctx.FileModelCtx <> Some (VFile o)) /\
  (c1, None) ∈ triggers BeforeUpload r.2 /\
  exists p uid origin d n c' res,
    rule_calls r.2 = [mkCall (AGeneratePath p uid origin) d;
                      mkCall (AGenerateFileName p uid (GetFileName req_file)) n] /\
    puts r.2 = [(c', filepath.Join d n, res)] /\
    spawned r.2 = [(c', filepath.Join d n, req_file)] /\
    Value_of c' fsctx.SavePathCtx = Some (VString (filepath.Join d n)).
Proof.
  intros r c1.
  assert (forall o, Value_of plain_ctx fsctx.FileModelCtx <> Some (VFile o)) as Hno
    by (intros o; cbn; discriminate).
  assert ((c1, None) ∈ triggers BeforeUpload r.2) as Hin
    by (vm_compute; repeat constructor).
  split; [exact Hno|]. split; [exact Hin|].
  exact (Upload_new_destination (scripted quiet) owner_fs plain_ctx req_file tt
           r.1.1 r.1.2 r.2 c1 Hno (triple_eta r) Hin).
Defined.

(** the context [Put] receives on a successful upload *)
Lemma Upload_contexts_witness :
  let r := run (scripted quiet) (Upload owner_fs plain_ctx req_file) tt in
  let c2 := WithValue (WithValue plain_ctx fsctx.FileHeaderCtx (VFileHeader req_file))
              fsctx.SavePathCtx (VString "/uploads/1/a.txt") in
  let put := mkCall (APut c2 req_file "/uploads/1/a.txt" 5) None in
  put ∈ r.2 /\ call_ctx put = Some c2 /\
  Value_of c2 fsctx.FileHeaderCtx = Some (VFileHeader req_file) /\
  Done c2 = Done plain_ctx /\
  Value_of c2 fsctx.GinCtx = Value_of plain_ctx fsctx.GinCtx.
Proof.
  intros r c2 put.
  assert (put ∈ r.2) as Hin by (vm_compute; repeat constructor).
  split; [exact Hin|]. split; [reflexivity|].
  destruct (Upload_contexts (scripted quiet) owner_fs plain_ctx req_file tt
              r.1.1 r.1.2 r.2 put c2 (triple_eta r) Hin eq_refl) as (H1 & H2 & H3 & _).
  split; [exact H1|]. split; [exact H2|]. apply H3; discriminate.
Defined.

(** an upload whose context has no request context starts a watcher that
    panics *)
Lemma Upload_watcher_witness :
  let r := run (scripted quiet) (Upload owner_fs bare_ctx req_file) tt in
  let c2 := WithValue (WithValue bare_ctx fsctx.FileHeaderCtx (VFileHeader req_file))
              fsctx.SavePathCtx (VString "/uploads/1/a.txt") in
  (c2, "/uploads/1/a.txt", req_file) ∈ spawned r.2 /\
  request_context bare_ctx = None /\
  run (scripted quiet) (CancelUpload owner_fs c2 "/uploads/1/a.txt" req_file) tt
    = (Panicked InterfaceConversion, tt, []).
Proof.
  intros r c2.
  assert ((c2, "/uploads/1/a.txt", req_file) ∈ spawned r.2) as Hin
    by (vm_compute; repeat constructor).
  split; [exact Hin|]. split; [reflexivity|].
  destruct (Upload_watcher (scripted quiet) owner_fs bare_ctx req_file tt
              r.1.1 r.1.2 r.2 c2 "/uploads/1/a.txt" req_file (triple_eta r) Hin)
    as (_ & _ & _ & _ & _ & H).
  exact (H eq_refl (scripted quiet) tt).
Defined.

(** owner 1 uploads [a.txt] under a declared anonymous policy, which is
    ignored *)
Lemma GenerateSavePath_authenticated_witness :
  model.ID (User owner_fs) <> 0 /\
  run (scripted quiet) (GenerateSavePath owner_fs declared_ctx req_file) tt =
  run (scripted quiet) (GenerateSavePath owner_fs plain_ctx req_file) tt.
Proof.
  assert (model.ID (User owner_fs) <> 0) as Hid by (cbn; discriminate).
  split; [exact Hid|].
  exact (proj2 (GenerateSavePath_authenticated (scripted quiet) owner_fs plain_ctx
                  req_file tt Hid) declared_ctx).
Defined.

(** an anonymous request without policy, under rules that expand to nothing *)
Lemma GenerateSavePath_empty_destination_witness :
  let r := run (scripted quiet) (GenerateSavePath anonymous_fs plain_ctx req_file) tt in
  exists dst d n,
    r.1.1 = Returned dst /\ rule_answers r.2 = [d; n] /\ length r.2 = 2%nat /\
    dst = filepath.Join d n /\ (dst = "" <-> d = "" /\ n = "").
Proof.
  intros r.
  exact (GenerateSavePath_empty_destination (scripted quiet) anonymous_fs plain_ctx
           req_file tt r.1.1 r.1.2 r.2 (triple_eta r)).
Defined.

(** the destination of owner 1's upload of [a.txt] *)
Lemma GenerateSavePath_clean_destination_witness :
  let r := run (scripted quiet) (GenerateSavePath owner_fs plain_ctx req_file) tt in
  exists dst, r.1.1 = Returned dst /\ (dst = "" \/ filepath.Clean dst = dst).
Proof.
  intros r.
  exact (GenerateSavePath_clean_destination (scripted quiet) owner_fs plain_ctx
           req_file tt r.1.1 r.1.2 r.2 (triple_eta r)).
Defined.

(** a watcher whose request context is a gin context stored under [HTTPCtx] *)
Lemma CancelUpload_waits_witness :
  request_context gin_as_http_ctx = Some (Root Never) /\
  is_closed (closed_by late_watcher) (Done (Root Never)) = false /\
  calls (sys_run (scripted quiet)
           (watch owner_fs gin_as_http_ctx "/uploads/1/a.txt" req_file tt) late_watcher)
    = [].
Proof.
  split; [reflexivity|]. split; [reflexivity|].
  rewrite (CancelUpload_waits (scripted quiet) owner_fs gin_as_http_ctx
             "/uploads/1/a.txt" req_file (Root Never) tt late_watcher eq_refl eq_refl).
  reflexivity.
Defined.

(** the watcher of a request that the client aborts *)
Lemma CancelUpload_calls_witness :
  request_context plain_ctx = Some (Root (Chan 0)) /\
  puts (calls (sys_run (scripted quiet)
                 (watch owner_fs plain_ctx "/uploads/1/a.txt" req_file tt)
                 prompt_watcher)) = [].
Proof.
  split; [reflexivity|].
  destruct (CancelUpload_calls (scripted quiet) owner_fs plain_ctx "/uploads/1/a.txt"
              req_file (Root (Chan 0)) tt prompt_watcher eq_refl) as (_ & H & _).
  exact H.
Defined.

(** the cleanup hook fails with "rm" *)
Lemma CancelUpload_hook_error_witness :
  let r := run (scripted cancel_hook_fails)
             (CancelUpload owner_fs plain_ctx "/uploads/1/a.txt" req_file) tt in
  let c := WithValue plain_ctx fsctx.SavePathCtx (VString "/uploads/1/a.txt") in
  request_context plain_ctx = Some (Root (Chan 0)) /\
  (c, Some (ErrorString "rm")) ∈ triggers AfterUploadCanceled r.2 /\
  r.1.1 = Returned tt /\
  logs r.2 = [(DebugLevel, "客户端取消上传", []);
              (DebugLevel, "执行 AfterUploadCanceled 钩子出错，%s",
               [LErr (ErrorString "rm")])].
Proof.
  intros r c.
  assert ((c, Some (ErrorString "rm")) ∈ triggers AfterUploadCanceled r.2) as Hin
    by (vm_compute; repeat constructor).
  split; [reflexivity|]. split; [exact Hin|].
  destruct (CancelUpload_hook_error (scripted cancel_hook_fails) owner_fs plain_ctx
              "/uploads/1/a.txt" req_file (Root (Chan 0)) tt r.1.1 r.1.2 r.2
              eq_refl (triple_eta r)) as (H1 & _ & H3 & _).
  split; [exact H1|]. exact (proj1 (H3 c _ Hin)).
Defined.

(** the request ends and the watcher is scheduled five times *)
Lemma CancelUpload_finishes_witness :
  request_context plain_ctx = Some (Root (Chan 0)) /\
  is_closed (closed_by [Close 0]) (Done (Root (Chan 0))) = true /\
  (5 <= scheds [Sched; Sched; Sched; Sched; Sched])%nat /\
  thread (sys_run (scripted quiet)
            (watch owner_fs plain_ctx "/uploads/1/a.txt" req_file tt)
            ([Close 0] ++ [Sched; Sched; Sched; Sched; Sched])) = Ret tt.
Proof.
  assert (5 <= scheds [Sched; Sched; Sched; Sched; Sched])%nat as Hn
    by (vm_compute; lia).
  split; [reflexivity|]. split; [reflexivity|]. split; [exact Hn|].
  exact (proj1 (CancelUpload_finishes (scripted quiet) owner_fs plain_ctx
                  "/uploads/1/a.txt" req_file (Root (Chan 0)) tt [Close 0]
                  [Sched; Sched; Sched; Sched; Sched] [] eq_refl eq_refl Hn)).
Defined.

(** a credential is issued and its session stored; and a cache that refuses
    the session: no credential comes back *)
Lemma GetUploadToken_atomic_witness :
  let r := run (scripted quiet) (GetUploadToken owner_fs plain_ctx "/" 5) tt in
  let f := run (scripted (with_cache quiet (Some (ErrorString "redis"))))
             (GetUploadToken owner_fs plain_ctx "/" 5) tt in
  let session := serializer.mkUploadSession 1 "/" in
  (exists ttl key res, tokens r.2 = [(ttl, key, res)]) /\
  (3600, "k", (serializer.mkUploadCredential "t", None)) ∈ tokens r.2 /\
  (exists ttl' res, cache_sets r.2 = [("callback_k", session, ttl', res)]) /\
  ("callback_k", session, 86400, None) ∈ cache_sets r.2 /\
  (exists err, r.1.1 = Returned (Some (serializer.mkUploadCredential "t"), err)) /\
  (exists cred, r.1.1 = Returned (Some cred, None)) /\
  ("callback_k", session, 86400, Some (ErrorString "redis")) ∈ cache_sets f.2 /\
  f.1.1 = Returned (None, Some (ErrorString "redis")).
Proof.
  intros r f session.
  assert ((3600, "k", (serializer.mkUploadCredential "t", None)) ∈ tokens r.2) as Hin1
    by (vm_compute; repeat constructor).
  assert (("callback_k", session, 86400, None) ∈ cache_sets r.2) as Hin2
    by (vm_compute; repeat constructor).
  assert (("callback_k", session, 86400, Some (ErrorString "redis")) ∈ cache_sets f.2)
    as Hin3 by (vm_compute; repeat constructor).
  destruct (GetUploadToken_atomic (scripted quiet) owner_fs plain_ctx "/" 5 tt
              (settings quiet) tt r.1.1 r.1.2 r.2 eq_refl (triple_eta r))
    as (Hiff & _ & Hasked & Hfollows & Hstored & _).
  destruct (GetUploadToken_atomic (scripted (with_cache quiet (Some (ErrorString "redis"))))
              owner_fs plain_ctx "/" 5 tt (settings quiet) tt f.1.1 f.1.2 f.2
              eq_refl (triple_eta f))
    as (_ & Hfail & _).
  split; [apply Hasked; vm_compute; discriminate|].
  split; [exact Hin1|].
  split; [exact (Hfollows _ _ _ Hin1)|].
  split; [exact Hin2|].
  split; [apply Hiff; exists 3600, "k", 86400; split; [exact Hin1|exact Hin2]|].
  split; [destruct (Hstored _ _ _ Hin2) as (cred & t & key & Ho & _); eauto|].
  split; [exact Hin3|]. exact (Hfail _ _ _ _ Hin3).
Defined.

(** TTLs configured as "120" and "600" reach the handler and the cache;
    with neither configured the defaults do; a session TTL configured as
    "abc" stops the run *)
Lemma GetUploadToken_ttl_settings_witness :
  let g := run (scripted good_ttl) (GetUploadToken owner_fs plain_ctx "/" 5) tt in
  let d := run (scripted quiet) (GetUploadToken owner_fs plain_ctx "/" 5) tt in
  let r := run (scripted bad_ttl) (GetUploadToken owner_fs plain_ctx "/" 5) tt in
  let session := serializer.mkUploadSession 1 "/" in
  accepted_ttl (settings good_ttl) "upload_credential_timeout" 3600 120 /\
  accepted_ttl (settings good_ttl) "upload_session_timeout" 86400 600 /\
  (exists key cred, tokens g.2 = [(120, key, (cred, None))] /\
     exists res, cache_sets g.2 = [("callback_" ++ key, session, 600, res)]) /\
  settings quiet !! "upload_credential_timeout" = None /\
  settings quiet !! "upload_session_timeout" = None /\
  (exists key cred, tokens d.2 = [(3600, key, (cred, None))] /\
     exists res, cache_sets d.2 = [("callback_" ++ key, session, 86400, res)]) /\
  settings bad_ttl !! "upload_session_timeout" = Some "abc" /\
  strconv.numeric "abc" = false /\
  (exists msg ne,
     r.1.1 = Returned (None, Some (AppError serializer.CodeInternalSetting msg (NumErr ne)))) /\
  tokens r.2 = [] /\ cache_sets r.2 = [].
Proof.
  intros g d r session.
  assert (accepted_ttl (settings good_ttl) "upload_credential_timeout" 3600 120) as A1
    by (vm_compute; reflexivity).
  assert (accepted_ttl (settings good_ttl) "upload_session_timeout" 86400 600) as A2
    by (vm_compute; reflexivity).
  assert (accepted_ttl (settings quiet) "upload_credential_timeout" 3600 3600) as D1
    by (vm_compute; reflexivity).
  assert (accepted_ttl (settings quiet) "upload_session_timeout" 86400 86400) as D2
    by (vm_compute; reflexivity).
  assert (tokens g.2 = [(120, "k", (serializer.mkUploadCredential "t", None))]) as Hg
    by (vm_compute; reflexivity).
  assert (tokens d.2 = [(3600, "k", (serializer.mkUploadCredential "t", None))]) as Hd
    by (vm_compute; reflexivity).
  assert (settings bad_ttl !! "upload_session_timeout" = Some "abc") as Hs
    by (vm_compute; reflexivity).
  split; [exact A1|]. split; [exact A2|].
  destruct (GetUploadToken_ttl_settings (scripted good_ttl) owner_fs plain_ctx "/" 5 tt
              (settings good_ttl) tt g.1.1 g.1.2 g.2 eq_refl (triple_eta g))
    as (_ & _ & _ & _ & _ & _ & _ & Hgood).
  destruct (Hgood 120 600 A1 A2) as (key & cred & r0 & Ht0 & Hset).
  split.
  { rewrite Hg in Ht0. injection Ht0 as <- <- <-.
    exists "k", (serializer.mkUploadCredential "t"). split; [exact Hg|].
    exact (Hset eq_refl). }
  split; [reflexivity|]. split; [reflexivity|].
  destruct (GetUploadToken_ttl_settings (scripted quiet) owner_fs plain_ctx "/" 5 tt
              (settings quiet) tt d.1.1 d.1.2 d.2 eq_refl (triple_eta d))
    as (_ & _ & _ & _ & _ & _ & _ & Hdef).
  destruct (Hdef 3600 86400 D1 D2) as (key' & cred' & r1 & Ht1 & Hset').
  split.
  { rewrite Hd in Ht1. injection Ht1 as <- <- <-.
    exists "k", (serializer.mkUploadCredential "t"). split; [exact Hd|].
    exact (Hset' eq_refl). }
  split; [exact Hs|]. split; [reflexivity|].
  destruct (GetUploadToken_ttl_settings (scripted bad_ttl) owner_fs plain_ctx "/" 5 tt
              (settings bad_ttl) tt r.1.1 r.1.2 r.2 eq_refl (triple_eta r))
    as (_ & _ & _ & _ & _ & _ & H & _).
  destruct (H "upload_session_timeout" "abc" (or_intror eq_refl) Hs eq_refl)
    as (H1 & _ & H3 & H4).
  auto.
Defined.
